(** * Flight data processor: data cache, airport statistics, peak hours

    A shallow embedding of [FlightDataProcessor] (the class behind
    [@/lib/flight-data-processor]) and the properties of its operations,
    followed by the helpers that use it: the analyses of the flight-data
    route ([FlightData]), the status and the random picks of the
    flight-tracking route ([FlightTracking]), and the airline lookup and the
    random picks of the seeding script ([SeedDatabase], [SeedGates]).

    Conventions of the embedding.
    - JavaScript numbers that the program only ever uses as integers (counts,
      hours, delay minutes, epoch milliseconds) are [Z].
    - Numbers that come out of a division are [number]: an exact rational, or
      one of the three IEEE specials.  The sign of zero is not tracked (every
      divisor of the program is a count) and finite results are exact: the
      rounding error of a binary64 quotient is not modelled.
    - [Map<number, number>] is an insertion-ordered association list, as
      [Map.prototype.forEach], [entries] and [values] iterate in insertion
      order; the two [Map<string, ...>] caches, which are only read and
      written by key, are [gmap string _].
    - [async] methods are run to completion: a method is a function from the
      processor's state to an outcome, the new state and the trace of the
      external effects it performed.
    - A call takes no time: [Date.now()] and [new Date()] read the same
      instant [now], in milliseconds, which the caller of a method supplies.
    - [Math.random()] is a sequence [random : nat -> Q] of values, drawn in
      order.
    - The flight-log source is a parameter of the methods: it answers with a
      log or fails.  [simulateCSVLoading], the source as shipped, always
      answers with the same five records. *)

From Stdlib Require Import ZArith QArith Qround Sorted Lia Lqa Ascii.
From stdpp Require Import base decidable option list gmap strings pretty.

Local Open Scope Z_scope.

(** ** JavaScript numbers *)

Inductive number : Type :=
  | NaN
  | PosInfinity
  | NegInfinity
  | Num (q : Q).

Definition of_Z (z : Z) : number := Num (inject_Z z).

Definition Qis_zero (q : Q) : bool := Qeq_bool q 0.
Definition Qis_neg (q : Q) : bool := negb (Qle_bool 0 q).

Definition signed_infinity (negative : bool) : number :=
  if negative then NegInfinity else PosInfinity.

(** [x / y] *)
Definition num_div (x y : number) : number :=
  match x, y with
  | NaN, _ | _, NaN => NaN
  | Num a, Num b =>
      if Qis_zero b then
        if Qis_zero a then NaN else signed_infinity (Qis_neg a)
      else Num (Qred (a / b))
  | Num _, (PosInfinity | NegInfinity) => Num 0
  | PosInfinity, Num b => signed_infinity (Qis_neg b)
  | NegInfinity, Num b => signed_infinity (negb (Qis_neg b))
  | (PosInfinity | NegInfinity), (PosInfinity | NegInfinity) => NaN
  end.

(** [x * y] *)
Definition num_mul (x y : number) : number :=
  match x, y with
  | NaN, _ | _, NaN => NaN
  | Num a, Num b => Num (Qred (a * b))
  | Num a, PosInfinity | PosInfinity, Num a =>
      if Qis_zero a then NaN else signed_infinity (Qis_neg a)
  | Num a, NegInfinity | NegInfinity, Num a =>
      if Qis_zero a then NaN else signed_infinity (negb (Qis_neg a))
  | PosInfinity, PosInfinity | NegInfinity, NegInfinity => PosInfinity
  | PosInfinity, NegInfinity | NegInfinity, PosInfinity => NegInfinity
  end.

(** [Math.round(x)]: the nearest integer, a half going up. *)
Definition Math_round (x : number) : number :=
  match x with
  | Num q => of_Z (Qfloor (q + (1 # 2)))
  | other => other
  end.

(** [Math.floor(x)] on a finite number. *)
Definition Math_floor (q : Q) : Z := Qfloor q.

(** [Math.max(...vs)]: [-Infinity] when there is no argument. *)
Definition Math_max (vs : list Z) : number :=
  match vs with
  | [] => NegInfinity
  | v :: vs' => of_Z (fold_left Z.max vs' v)
  end.

(** ** The flight record *)

Inductive FlightStatus : Type :=
  | SCHEDULED
  | DELAYED
  | DEPARTED
  | ARRIVED
  | CANCELLED.

Global Instance FlightStatus_eq_dec : EqDecision FlightStatus.
Proof. solve_decision. Defined.

(** A [Date] held by a record is kept as the ISO text it was built from. *)
Definition Date : Type := string.

Record ProcessedFlightData : Type := mkFlight {
  id : string;
  flightNumber : string;
  origin : string;
  destination : string;
  scheduledDeparture : Date;
  scheduledArrival : Date;
  actualDeparture : option Date;
  actualArrival : option Date;
  status : FlightStatus;
  delayMinutes : option Z;
  aircraft : option string;
  airportCode : string;
  scheduledHour : Z;
  dayOfWeek : Z;
  flightDuration : Z
}.

Record DelayDistribution : Type := mkDistribution {
  minor : Z;
  major : Z;
  critical : Z
}.

Record AirportStatistics : Type := mkStatistics {
  totalFlights : Z;
  delayedFlights : Z;
  avgDelay : number;
  peakHour : Z;
  peakFlights : Z;
  delayDistribution : DelayDistribution;
  capacityUtilization : number
}.

Record PeakHourAnalysis : Type := mkPeak {
  hour : Z;
  flightCount : Z;
  utilization : number
}.

(** ** [Map<number, number>], in insertion order *)

Module JsMap.

Definition t : Type := list (Z * Z).

Definition empty : t := [].

(** [m.get(k)] *)
Fixpoint get (k : Z) (m : t) : option Z :=
  match m with
  | [] => None
  | (k', v) :: m' => if Z.eqb k k' then Some v else get k m'
  end.

(** [m.set(k, v)]: an existing key keeps its place, a new one goes last. *)
Fixpoint set (k v : Z) (m : t) : t :=
  match m with
  | [] => [(k, v)]
  | (k', v') :: m' =>
      if Z.eqb k k' then (k, v) :: m' else (k', v') :: set k v m'
  end.

Definition keys (m : t) : list Z := map fst m.
Definition values (m : t) : list Z := map snd m.
Definition entries (m : t) : list (Z * Z) := m.

End JsMap.

(** [Array.prototype.sort(cmp)].  The language requires the sort to be stable;
    its result is then determined by [cmp], and a stable insertion sort
    computes it. *)
Section Sort.
Context {A : Type} (cmp : A -> A -> Z).

Fixpoint sort_insert (x : A) (l : list A) : list A :=
  match l with
  | [] => [x]
  | y :: l' => if Z.leb (cmp x y) 0 then x :: y :: l' else y :: sort_insert x l'
  end.

Definition array_sort (l : list A) : list A := foldr sort_insert [] l.
End Sort.

(** ** The statistics, as computed from a flight log *)

(** [f.delayMinutes || 0] *)
Definition delayOrZero (f : ProcessedFlightData) : Z :=
  match delayMinutes f with
  | Some d => d
  | None => 0
  end.

(** [f.delayMinutes && f.delayMinutes > 0] *)
Definition isDelayed (f : ProcessedFlightData) : bool :=
  match delayMinutes f with
  | Some d => Z.ltb 0 d
  | None => false
  end.

Definition count (p : ProcessedFlightData -> bool) (flightData : list ProcessedFlightData) : Z :=
  Z.of_nat (length (List.filter p flightData)).

(** The [forEach] that fills [hourlyCounts]. *)
Definition countHour (hourlyCounts : JsMap.t) (f : ProcessedFlightData) : JsMap.t :=
  let count := default 0 (JsMap.get (scheduledHour f) hourlyCounts) in
  JsMap.set (scheduledHour f) (count + 1) hourlyCounts.

Definition hourlyCounts (flightData : list ProcessedFlightData) : JsMap.t :=
  fold_left countHour flightData JsMap.empty.

(** The [forEach] that finds the peak: the pair is [(peakHour, peakFlights)]. *)
Definition peakStep (peak : Z * Z) (entry : Z * Z) : Z * Z :=
  let '(hour, count) := entry in
  if Z.ltb (snd peak) count then (hour, count) else peak.

Definition findPeak (counts : JsMap.t) : Z * Z :=
  fold_left peakStep (JsMap.entries counts) (0, 0).

Definition isMinor (f : ProcessedFlightData) : bool :=
  Z.ltb (Z.abs (delayOrZero f)) 15.
Definition isMajor (f : ProcessedFlightData) : bool :=
  Z.leb 15 (Z.abs (delayOrZero f)) && Z.ltb (Z.abs (delayOrZero f)) 60.
Definition isCritical (f : ProcessedFlightData) : bool :=
  Z.leb 60 (Z.abs (delayOrZero f)).

(** The body of [getAirportStatistics] after the flight data has arrived. *)
Definition airportStatistics (flightData : list ProcessedFlightData) : AirportStatistics :=
  let totalFlights := Z.of_nat (length flightData) in
  let delayedFlights := count isDelayed flightData in
  let avgDelay :=
    num_div (of_Z (fold_left (fun sum f => sum + delayOrZero f) flightData 0))
            (of_Z totalFlights) in
  let '(peakHour, peakFlights) := findPeak (hourlyCounts flightData) in
  let delayDistribution :=
    {| minor := count isMinor flightData;
       major := count isMajor flightData;
       critical := count isCritical flightData |} in
  let capacityUtilization :=
    num_mul (num_div (of_Z totalFlights) (of_Z (peakFlights * 24))) (of_Z 100) in
  {| totalFlights := totalFlights;
     delayedFlights := delayedFlights;
     avgDelay := num_div (Math_round (num_mul avgDelay (of_Z 100))) (of_Z 100);
     peakHour := peakHour;
     peakFlights := peakFlights;
     delayDistribution := delayDistribution;
     capacityUtilization :=
       num_div (Math_round (num_mul capacityUtilization (of_Z 100))) (of_Z 100) |}.

(** The unsorted array of [getPeakHourAnalysis]:
    [Array.from(hourlyCounts.entries()).map(...)]. *)
Definition peakBuckets (flightData : list ProcessedFlightData) : list PeakHourAnalysis :=
  let hourlyCounts := hourlyCounts flightData in
  let maxFlights := Math_max (JsMap.values hourlyCounts) in
  map (fun '(hour, flightCount) =>
         {| hour := hour;
            flightCount := flightCount;
            utilization :=
              Math_round (num_mul (num_div (of_Z flightCount) maxFlights) (of_Z 100)) |})
      (JsMap.entries hourlyCounts).

(** The comparison function [(a, b) => b.flightCount - a.flightCount]. *)
Definition byFlightCountDesc (a b : PeakHourAnalysis) : Z :=
  flightCount b - flightCount a.

(** The body of [getPeakHourAnalysis] after the flight data has arrived. *)
Definition peakHourAnalysis (flightData : list ProcessedFlightData) : list PeakHourAnalysis :=
  array_sort byFlightCountDesc (peakBuckets flightData).

(** ** The simulated loader *)

Definition simulatedData : list ProcessedFlightData :=
  [ {| id := "1"; flightNumber := "AI101"; origin := "BOM"; destination := "IXC";
       scheduledDeparture := "2025-07-25T06:00:00";
       scheduledArrival := "2025-07-25T08:10:00";
       actualDeparture := Some "2025-07-25T06:20:00";
       actualArrival := Some "2025-07-25T08:14:00";
       status := DEPARTED; delayMinutes := Some 20;
       aircraft := Some "A20N (VT-EXU)"; airportCode := "BOM";
       scheduledHour := 6; dayOfWeek := 4; flightDuration := 114 |};
    {| id := "2"; flightNumber := "AI102"; origin := "BOM"; destination := "HYD";
       scheduledDeparture := "2025-07-25T06:00:00";
       scheduledArrival := "2025-07-25T07:25:00";
       actualDeparture := Some "2025-07-25T06:17:00";
       actualArrival := Some "2025-07-25T07:26:00";
       status := DEPARTED; delayMinutes := Some 17;
       aircraft := Some "A20N (VT-TQW)"; airportCode := "BOM";
       scheduledHour := 6; dayOfWeek := 4; flightDuration := 69 |};
    {| id := "3"; flightNumber := "AI103"; origin := "BOM"; destination := "DEL";
       scheduledDeparture := "2025-07-25T06:00:00";
       scheduledArrival := "2025-07-25T07:55:00";
       actualDeparture := Some "2025-07-25T06:08:00";
       actualArrival := Some "2025-07-25T07:49:00";
       status := DEPARTED; delayMinutes := Some 8;
       aircraft := Some "A21N (VT-NCB)"; airportCode := "BOM";
       scheduledHour := 6; dayOfWeek := 4; flightDuration := 102 |};
    {| id := "4"; flightNumber := "AI104"; origin := "BOM"; destination := "BLR";
       scheduledDeparture := "2025-07-25T06:05:00";
       scheduledArrival := "2025-07-25T07:55:00";
       actualDeparture := Some "2025-07-25T06:05:00";
       actualArrival := Some "2025-07-25T07:22:00";
       status := ARRIVED; delayMinutes := Some 0;
       aircraft := Some "A21N (VT-IWU)"; airportCode := "BOM";
       scheduledHour := 6; dayOfWeek := 4; flightDuration := 77 |};
    {| id := "5"; flightNumber := "AI105"; origin := "BOM"; destination := "CMB";
       scheduledDeparture := "2025-07-25T06:10:00";
       scheduledArrival := "2025-07-25T08:45:00";
       actualDeparture := Some "2025-07-25T06:54:00";
       actualArrival := Some "2025-07-25T09:00:00";
       status := DELAYED; delayMinutes := Some 44;
       aircraft := Some "A20N (VT-IJZ)"; airportCode := "BOM";
       scheduledHour := 6; dayOfWeek := 4; flightDuration := 127 |} ].

(** [simulateCSVLoading(filePath)]: the path is not read. *)
Definition simulateCSVLoading (filePath : string) : list ProcessedFlightData :=
  simulatedData.

(** ** The processor: its state and its effects *)

(** The two private maps of the class.  [lastUpdated] keeps, for each key, the
    [getTime()] of the stored [Date], in milliseconds. *)
Record FlightDataProcessor : Type := mkProcessor {
  dataCache : gmap string (list ProcessedFlightData);
  lastUpdated : gmap string Z
}.

(** [new FlightDataProcessor()] *)
Definition newProcessor : FlightDataProcessor :=
  {| dataCache := ∅; lastUpdated := ∅ |}.

(** What a method does outside the processor: it asks the flight-log source
    for data, and it writes to the error console. *)
Inductive Event (Err : Type) : Type :=
  | SourceCall (filePath : string)
  | ConsoleError (message : string) (error : Err).
Arguments SourceCall {Err} filePath.
Arguments ConsoleError {Err} message error.

(** A method run to completion: the promise is fulfilled ([inr]) or rejected
    ([inl]), the processor is left in a new state, and the events happened in
    the order of the trace. *)
Definition M (Err A : Type) : Type :=
  FlightDataProcessor -> (Err + A) * FlightDataProcessor * list (Event Err).

Section Monad.
Context {Err : Type}.

Definition ret {A} (a : A) : M Err A := fun s => (inr a, s, []).

Definition throw {A} (e : Err) : M Err A := fun s => (inl e, s, []).

Definition bind {A B} (m : M Err A) (k : A -> M Err B) : M Err B :=
  fun s =>
    match m s with
    | (inl e, s1, t1) => (inl e, s1, t1)
    | (inr a, s1, t1) =>
        let '(r, s2, t2) := k a s1 in (r, s2, t1 ++ t2)
    end.

(** [try { m } catch (error) { handler(error) }] *)
Definition try_catch {A} (m : M Err A) (handler : Err -> M Err A) : M Err A :=
  fun s =>
    match m s with
    | (inl e, s1, t1) =>
        let '(r, s2, t2) := handler e s1 in (r, s2, t1 ++ t2)
    | fulfilled => fulfilled
    end.

Definition this : M Err FlightDataProcessor := fun s => (inr s, s, []).

(** [this.dataCache.set(key, data)] *)
Definition dataCache_set (key : string) (data : list ProcessedFlightData) : M Err unit :=
  fun s => (inr tt,
            {| dataCache := <[key := data]> (dataCache s);
               lastUpdated := lastUpdated s |}, []).

(** [this.lastUpdated.set(key, new Date())], the clock reading [now]. *)
Definition lastUpdated_set (key : string) (now : Z) : M Err unit :=
  fun s => (inr tt,
            {| dataCache := dataCache s;
               lastUpdated := <[key := now]> (lastUpdated s) |}, []).

(** [console.error(message, error)] *)
Definition console_error (message : string) (error : Err) : M Err unit :=
  fun s => (inr tt, s, [ConsoleError message error]).

(** Awaiting the flight-log source: it answers with a log or fails. *)
Definition await_source (source : string -> Err + list ProcessedFlightData)
    (filePath : string) : M Err (list ProcessedFlightData) :=
  fun s => (source filePath, s, [SourceCall filePath]).
End Monad.

Notation "x <- m ;; k" := (bind m (fun x => k))
  (at level 100, m at next level, right associativity).
Notation "m ;;; k" := (bind m (fun _ => k))
  (at level 100, right associativity).

(** ** The random perturbation of [getRealTimeUpdates] *)

(** [Math.floor(Math.random() * 30) - 15], for the value [r] of
    [Math.random()]. *)
Definition randomDelay (r : Q) : Z := Math_floor (r * 30) - 15.

(** The object literal [{ ...flight, delayMinutes: ..., status: ... }]. *)
Definition perturb (flight : ProcessedFlightData) (randomDelay : Z) : ProcessedFlightData :=
  {| id := id flight;
     flightNumber := flightNumber flight;
     origin := origin flight;
     destination := destination flight;
     scheduledDeparture := scheduledDeparture flight;
     scheduledArrival := scheduledArrival flight;
     actualDeparture := actualDeparture flight;
     actualArrival := actualArrival flight;
     status := if Z.ltb 0 randomDelay then DELAYED else status flight;
     delayMinutes := Some (Z.max 0 (delayOrZero flight + randomDelay));
     aircraft := aircraft flight;
     airportCode := airportCode flight;
     scheduledHour := scheduledHour flight;
     dayOfWeek := dayOfWeek flight;
     flightDuration := flightDuration flight |}.

(** [Math.random() < 0.1] *)
Definition selected (r : Q) : bool := negb (Qle_bool (1 # 10) r).

(** The callback of the [map].  [random] is the sequence of the values that
    [Math.random()] returns and [n] the number of values drawn so far; the
    callback returns the record and the new number of values drawn. *)
Definition updateFlight (random : nat -> Q) (n : nat) (flight : ProcessedFlightData)
    : ProcessedFlightData * nat :=
  if selected (random n) then
    (perturb flight (randomDelay (random (S n))), S (S n))
  else (flight, S n).

(** [flightData.map(flight => ...)], the callback applied from left to right. *)
Fixpoint updateFlights (random : nat -> Q) (n : nat) (flightData : list ProcessedFlightData)
    : list ProcessedFlightData :=
  match flightData with
  | [] => []
  | flight :: rest =>
      let '(updated, n') := updateFlight random n flight in
      updated :: updateFlights random n' rest
  end.

(** ** The methods *)

Section Processor.
Context {Err : Type}.

(** The flight-log source behind [simulateCSVLoading]: what it answers for a
    file path. *)
Variable source : string -> Err + list ProcessedFlightData.

Definition defaultFilePath : string := "./flight_data_cleaned.csv".

(** [now] is the reading of the clock during the call. *)
Definition loadFlightDataFromCSV (filePath : string) (now : Z)
    : M Err (list ProcessedFlightData) :=
  try_catch
    (flightData <- await_source source filePath ;;
     dataCache_set "BOM" flightData ;;;
     lastUpdated_set "BOM" now ;;;
     ret flightData)
    (fun error =>
       console_error "Error loading flight data:" error ;;;
       throw error).

(** [cachedData && lastUpdate && (Date.now() - lastUpdate.getTime()) < 5 * 60 * 1000]:
    an array and a [Date] are truthy whatever they hold. *)
Definition cacheHit (airportCode : string) (now : Z) (s : FlightDataProcessor)
    : option (list ProcessedFlightData) :=
  match dataCache s !! airportCode, lastUpdated s !! airportCode with
  | Some cachedData, Some lastUpdate =>
      if Z.ltb (now - lastUpdate) (5 * 60 * 1000) then Some cachedData else None
  | _, _ => None
  end.

Definition getFlightData (airportCode : string) (now : Z)
    : M Err (list ProcessedFlightData) :=
  s <- this ;;
  match cacheHit airportCode now s with
  | Some cachedData => ret cachedData
  | None =>
      freshData <- loadFlightDataFromCSV defaultFilePath now ;;
      ret freshData
  end.

Definition getAirportStatistics (airportCode : string) (now : Z)
    : M Err AirportStatistics :=
  flightData <- getFlightData airportCode now ;;
  ret (airportStatistics flightData).

Definition getPeakHourAnalysis (airportCode : string) (now : Z)
    : M Err (list PeakHourAnalysis) :=
  flightData <- getFlightData airportCode now ;;
  ret (peakHourAnalysis flightData).

Definition getRealTimeUpdates (airportCode : string) (now : Z) (random : nat -> Q)
    : M Err (list ProcessedFlightData) :=
  flightData <- getFlightData airportCode now ;;
  let updatedData := updateFlights random 0 flightData in
  dataCache_set airportCode updatedData ;;;
  lastUpdated_set airportCode now ;;;
  ret updatedData.
End Processor.

(** The processor as shipped: the source is [simulateCSVLoading], which never
    fails. *)
Definition shippedSource {Err : Type} (filePath : string)
    : Err + list ProcessedFlightData :=
  inr (simulateCSVLoading filePath).

(** ** Notions used to state the properties *)

(** The number of records of the log scheduled in hour [h]. *)
Definition hourCount (h : Z) (flightData : list ProcessedFlightData) : Z :=
  count (fun f => Z.eqb (scheduledHour f) h) flightData.

(** The hours of a list in the order of their first occurrence. *)
Fixpoint firstOccurrences (hs : list Z) : list Z :=
  match hs with
  | [] => []
  | h :: hs' => h :: filter (fun x => x ≠ h) (firstOccurrences hs')
  end.

Definition hoursOf (flightData : list ProcessedFlightData) : list Z :=
  map scheduledHour flightData.

(** The three classes of the delay distribution as the specification words
    them: by the magnitude of the delay, an absent delay counting as 0. *)
Inductive DelayClass : Type :=
  | Minor
  | Major
  | Critical.

Global Instance DelayClass_eq_dec : EqDecision DelayClass.
Proof. solve_decision. Defined.



(** No delay of the record is below zero. *)
Definition delayNotNegative (f : ProcessedFlightData) : Prop :=
  forall d, delayMinutes f = Some d -> 0 <= d.

(** No cached log holds a delay below zero. *)
Definition cacheNotNegative (s : FlightDataProcessor) : Prop :=
  forall airportCode flightData,
    dataCache s !! airportCode = Some flightData ->
    Forall delayNotNegative flightData.

(** The fields that [getRealTimeUpdates] never writes. *)
Definition sameOtherFields (f g : ProcessedFlightData) : Prop :=
  id g = id f
  /\ flightNumber g = flightNumber f
  /\ origin g = origin f
  /\ destination g = destination f
  /\ scheduledDeparture g = scheduledDeparture f
  /\ scheduledArrival g = scheduledArrival f
  /\ actualDeparture g = actualDeparture f
  /\ actualArrival g = actualArrival f
  /\ aircraft g = aircraft f
  /\ airportCode g = airportCode f
  /\ scheduledHour g = scheduledHour f
  /\ dayOfWeek g = dayOfWeek f
  /\ flightDuration g = flightDuration f.

(** ** Sample sources, states and random sequences *)

(** A source that cannot be reached. *)
Definition failingSource (filePath : string) : string + list ProcessedFlightData :=
  inl "ENOENT".

(** A source whose log has no record. *)
Definition emptySource (filePath : string) : string + list ProcessedFlightData :=
  inr [].

(** A flight that left five minutes early. *)
Definition earlyFlight : ProcessedFlightData :=
  {| id := "6"; flightNumber := "AI106"; origin := "BOM"; destination := "GOI";
     scheduledDeparture := "2025-07-25T07:00:00";
     scheduledArrival := "2025-07-25T08:15:00";
     actualDeparture := Some "2025-07-25T06:55:00";
     actualArrival := None;
     status := DEPARTED; delayMinutes := Some (-5);
     aircraft := None; airportCode := "BOM";
     scheduledHour := 7; dayOfWeek := 4; flightDuration := 75 |}.


(** The processor five minutes after it loaded the simulated data at time 0:
    its entry is no longer fresh at time [5 * 60 * 1000]. *)
Definition loadedProcessor : FlightDataProcessor :=
  {| dataCache := {["BOM" := simulatedData]}; lastUpdated := {["BOM" := 0]} |}.

(** [Math.random()] returning 0.5 every time: no record is selected. *)
Definition randomHalf (n : nat) : Q := 1 # 2.

(** [Math.random()] returning 0.05 every time: every record is selected and
    every perturbation is [Math.floor(1.5) - 15]. *)
Definition randomLow (n : nat) : Q := 1 # 20.

(** A log with two hours of two records each, hour 7 met first. *)
Definition atHour (h : Z) (f : ProcessedFlightData) : ProcessedFlightData :=
  {| id := id f; flightNumber := flightNumber f; origin := origin f;
     destination := destination f;
     scheduledDeparture := scheduledDeparture f;
     scheduledArrival := scheduledArrival f;
     actualDeparture := actualDeparture f; actualArrival := actualArrival f;
     status := status f; delayMinutes := delayMinutes f;
     aircraft := aircraft f; airportCode := airportCode f;
     scheduledHour := h; dayOfWeek := dayOfWeek f;
     flightDuration := flightDuration f |}.

Definition tiedLog : list ProcessedFlightData :=
  zip_with atHour [7; 6; 6; 7; 5] simulatedData.

(** ** Further notions: totals, rounding, the hours of a day *)


(** A rational rounded to two decimals, a half going up. *)
Definition round2Q (y : Q) : Q :=
  inject_Z (Qfloor (y * inject_Z 100 + (1 # 2))) / inject_Z 100.


(** The sum of the [flightCount] of a list of buckets. *)
Definition totalFlightCount (buckets : list PeakHourAnalysis) : Z :=
  foldr (fun b sum => flightCount b + sum) 0 buckets.

(** ** Sequences of calls *)

(** A call of one of the four public methods, with the time at which it is
    made and, for [getRealTimeUpdates], the values [Math.random()] returns
    during it. *)
Inductive Call : Type :=
  | GetFlightData (airportCode : string) (now : Z)
  | GetAirportStatistics (airportCode : string) (now : Z)
  | GetPeakHourAnalysis (airportCode : string) (now : Z)
  | GetRealTimeUpdates (airportCode : string) (now : Z) (random : nat -> Q).

(** The processor after a call, whether it was fulfilled or rejected. *)
Definition afterCall {Err : Type} (source : string -> Err + list ProcessedFlightData)
    (s : FlightDataProcessor) (c : Call) : FlightDataProcessor :=
  match c with
  | GetFlightData airportCode now => (getFlightData source airportCode now s).1.2
  | GetAirportStatistics airportCode now =>
      (getAirportStatistics source airportCode now s).1.2
  | GetPeakHourAnalysis airportCode now =>
      (getPeakHourAnalysis source airportCode now s).1.2
  | GetRealTimeUpdates airportCode now random =>
      (getRealTimeUpdates source airportCode now random s).1.2
  end.

(** The processor after a sequence of calls on the one instance. *)
Definition afterCalls {Err : Type} (source : string -> Err + list ProcessedFlightData)
    (cs : list Call) (s : FlightDataProcessor) : FlightDataProcessor :=
  fold_left (afterCall source) cs s.

(** The two maps of the processor have the same keys. *)
Definition cacheConsistent (s : FlightDataProcessor) : Prop :=
  dom (dataCache s) = dom (lastUpdated s).

(** Every cached log is a log of the source in which at most [delayMinutes]
    and [status] have been rewritten. *)
Definition cacheFromSource {Err : Type}
    (source : string -> Err + list ProcessedFlightData)
    (s : FlightDataProcessor) : Prop :=
  forall key cachedData,
    dataCache s !! key = Some cachedData ->
    exists filePath sourceData,
      source filePath = inr sourceData
      /\ Forall2 sameOtherFields sourceData cachedData.

(** ** Strings

    A [string] stands for a JavaScript string of 7-bit characters. *)

(** One character of [s.toUpperCase()]: the letters a to z go to A to Z. *)
Definition upperChar (c : ascii) : ascii :=
  let n := nat_of_ascii c in
  if ((97 <=? n) && (n <=? 122))%nat then ascii_of_nat (n - 32) else c.

(** [s.toUpperCase()] *)
Fixpoint toUpperCase (s : string) : string :=
  match s with
  | EmptyString => EmptyString
  | String c s' => String (upperChar c) (toUpperCase s')
  end.

(** [value || fallback] for a string that may be [undefined]: the empty
    string is falsy as [undefined] is. *)
Definition stringOr (value : option string) (fallback : string) : string :=
  match value with
  | None | Some EmptyString => fallback
  | Some text => text
  end.

(** [n.toString()] for an integer. *)
Definition toString (n : Z) : string := pretty n.

(** [s.padStart(targetLength, "0")] *)
Definition padStart0 (targetLength : nat) (s : string) : string :=
  String.concat "" (replicate (targetLength - String.length s) "0") +:+ s.

(** ** The airline of a flight number *)

(** The table of the processor's [extractAirline]. *)
Definition airlineCodes : gmap string string :=
  list_to_map
    [ ("AI", "Air India"); ("6E", "IndiGo"); ("SG", "SpiceJet");
      ("UK", "Vistara"); ("G8", "GoAir"); ("IX", "Air India Express");
      ("QP", "Akasa Air") ].

Definition extractAirline (flightNumber : string) : string :=
  let code := toUpperCase (String.substring 0 2 flightNumber) in
  stringOr (airlineCodes !! code) "Unknown Airline".

(** [scripts/seed-database.ts] *)
Module SeedDatabase.

(** The table of the seeding script's own [extractAirline]. *)
Definition airlineCodes : gmap string string :=
  list_to_map
    [ ("AI", "Air India"); ("6E", "IndiGo"); ("SG", "SpiceJet");
      ("UK", "Vistara"); ("G8", "GoAir"); ("IX", "Air India Express");
      ("QP", "Akasa Air"); ("WY", "Oman Air"); ("B7", "Boeing");
      ("A2", "Air Asia"); ("A3", "Air Asia"); ("A4", "Air Arabia");
      ("A9", "Air Arabia"); ("VT", "Various") ].

Definition extractAirline (flightNumber : string) : string :=
  let code := toUpperCase (String.substring 0 2 flightNumber) in
  stringOr (airlineCodes !! code) "Unknown Airline".

End SeedDatabase.

(** ** Arrays and template strings *)

(** [array[i]] for an integer [i]: [undefined] outside the array. *)
Definition arrayAt {A : Type} (array : list A) (i : Z) : option A :=
  if Z.ltb i 0 then None else array !! Z.to_nat i.

(** A string that may be [undefined], as a template literal prints it. *)
Definition templateText (value : option string) : string :=
  match value with
  | Some text => text
  | None => "undefined"
  end.

(** [value || fallback] for a number that may be [undefined]: 0 is falsy. *)
Definition numberOr (value : option Z) (fallback : Z) : Z :=
  match value with
  | None | Some 0 => fallback
  | Some n => n
  end.

(** [`${hour.toString().padStart(2, '0')}:00`] *)
Definition hourLabel (hour : Z) : string :=
  padStart0 2 (toString hour) +:+ ":00".

(** [x > bound] for a number [x] and an integer [bound]: false on [NaN]. *)
Definition num_gtb (x : number) (bound : Z) : bool :=
  match x with
  | Num q => negb (Qle_bool q (inject_Z bound))
  | PosInfinity => true
  | NaN | NegInfinity => false
  end.

(** The random picks of [scripts/seed-database.ts]; [r1], [r2] and [r] are
    the values of [Math.random()]. *)
Module SeedGates.

Definition generateRandomGate (r1 r2 : Q) : string :=
  let terminals := ["A"; "B"; "C"; "D"] in
  let terminal :=
    arrayAt terminals (Math_floor (r1 * inject_Z (Z.of_nat (length terminals)))) in
  let number := Math_floor (r2 * 50) + 1 in
  templateText terminal +:+ toString number.

Definition generateRandomTerminal (r : Q) : option string :=
  let terminals := ["T1"; "T2"; "T3"; "T4"] in
  arrayAt terminals (Math_floor (r * inject_Z (Z.of_nat (length terminals)))).

End SeedGates.

(** The helpers of the flight-tracking route. *)
Module FlightTracking.

Definition getFlightStatus (status : FlightStatus) (delayMinutes : option Z) : string :=
  if (match delayMinutes with Some d => Z.ltb 0 d | None => false end)
  then "delayed"
  else match status with
       | SCHEDULED => "scheduled"
       | DEPARTED => "departed"
       | ARRIVED => "arrived"
       | CANCELLED => "cancelled"
       | DELAYED => "scheduled"
       end.

Definition generateRandomGate (r1 r2 : Q) : string :=
  let terminals := ["A"; "B"; "C"] in
  let terminal :=
    arrayAt terminals (Math_floor (r1 * inject_Z (Z.of_nat (length terminals)))) in
  let number := Math_floor (r2 * 30) + 1 in
  templateText terminal +:+ toString number.

Definition generateRandomTerminal (r : Q) : option string :=
  let terminals := ["T1"; "T2"] in
  arrayAt terminals (Math_floor (r * inject_Z (Z.of_nat (length terminals)))).

End FlightTracking.

(** ** [Map<K, number>] for any key with a decidable equality, in insertion
    order *)

Section KeyMap.
Context {K : Type} `{EqDecision K}.

(** [m.get(k)] *)
Fixpoint keymap_get (k : K) (m : list (K * Z)) : option Z :=
  match m with
  | [] => None
  | (k', v) :: m' => if decide (k = k') then Some v else keymap_get k m'
  end.

(** [m.set(k, v)]: an existing key keeps its place, a new one goes last. *)
Fixpoint keymap_set (k : K) (v : Z) (m : list (K * Z)) : list (K * Z) :=
  match m with
  | [] => [(k, v)]
  | (k', v') :: m' =>
      if decide (k = k') then (k, v) :: m' else (k', v') :: keymap_set k v m'
  end.

(** The keys of a list in the order of their first occurrence. *)
Fixpoint firstKeys (ks : list K) : list K :=
  match ks with
  | [] => []
  | k :: ks' => k :: filter (fun x => x ≠ k) (firstKeys ks')
  end.

(** The number of occurrences of a key in a list. *)
Definition occurrences (k : K) (ks : list K) : Z :=
  Z.of_nat (length (filter (fun x => x = k) ks)).
End KeyMap.

(** The analyses of the flight-data route. *)
Module FlightData.

Record HourlyEntry : Type := mkHourly {
  hour : string;
  flights : Z;
  utilization : number
}.

Record PeakHours : Type := mkPeakHours {
  peakHour : string;
  morningPercentage : number;
  afternoonPercentage : number;
  eveningPercentage : number;
  hourlyDistribution : list HourlyEntry;
  insights : list string
}.

Record CascadingRisk : Type := mkRisk {
  level : string;
  propagationRate : number;
  affectedFlights : Z
}.

(** [peakHourData.filter(h => h.hour >= from && h.hour < to)
      .reduce((sum, h) => sum + h.flightCount, 0)] *)
Definition flightsBetween (from to : Z) (peakHourData : list PeakHourAnalysis) : Z :=
  fold_left (fun sum '(mkPeak _ flightCount _) => sum + flightCount)
    (List.filter (fun '(mkPeak hour _ _) => Z.leb from hour && Z.ltb hour to)
                 peakHourData)
    0.

(** [Math.round((part / totalFlights) * 100)] *)
Definition percentage (part totalFlights : Z) : number :=
  Math_round (num_mul (num_div (of_Z part) (of_Z totalFlights)) (of_Z 100)).

(** The object that [analyzePeakHours] builds from the peak-hour data. *)
Definition peakHours (peakHourData : list PeakHourAnalysis) : PeakHours :=
  let morningFlights := flightsBetween 6 12 peakHourData in
  let afternoonFlights := flightsBetween 12 18 peakHourData in
  let eveningFlights := flightsBetween 18 24 peakHourData in
  let totalFlights := morningFlights + afternoonFlights + eveningFlights in
  let peakHour :=
    numberOr (option_map (fun '(mkPeak hour _ _) => hour) (head peakHourData)) 14 in
  let peakFlights :=
    numberOr (option_map (fun '(mkPeak _ flightCount _) => flightCount)
                         (head peakHourData)) 0 in
  {| peakHour := hourLabel peakHour;
     morningPercentage := percentage morningFlights totalFlights;
     afternoonPercentage := percentage afternoonFlights totalFlights;
     eveningPercentage := percentage eveningFlights totalFlights;
     hourlyDistribution :=
       map (fun '(mkPeak hour flightCount utilization) =>
              {| hour := hourLabel hour;
                 flights := flightCount;
                 utilization := utilization |})
           peakHourData;
     insights :=
       [ "Peak traffic occurs at " +:+ hourLabel peakHour +:+ " with "
           +:+ toString peakFlights +:+ " flights";
         "Afternoon hours show highest traffic concentration";
         "Morning operations are consistently busy with steady flow" ] |}.

Definition analyzePeakHours {Err : Type}
    (source : string -> Err + list ProcessedFlightData)
    (airportCode : string) (now : Z) : M Err PeakHours :=
  try_catch
    (peakHourData <- getPeakHourAnalysis source airportCode now ;;
     ret (peakHours peakHourData))
    (fun error =>
       console_error "Error analyzing peak hours:" error ;;;
       throw error).

(** The [cascadingRisk] field of the object that [analyzeDelays] builds from
    the statistics. *)
Definition cascadingRisk (stats : AirportStatistics) : CascadingRisk :=
  {| level :=
       if num_gtb (avgDelay stats) 30 then "high"
       else if num_gtb (avgDelay stats) 15 then "medium"
       else "low";
     propagationRate :=
       num_div
         (Math_round
            (num_mul (num_div (of_Z (delayedFlights stats)) (of_Z (totalFlights stats)))
                     (of_Z 100)))
         (of_Z 100);
     affectedFlights := delayedFlights stats |}.

Record RouteFrequency : Type := mkRoute {
  route : string;
  frequency : Z
}.

(** [`${flight.origin}-${flight.destination}`] *)
Definition routeOf (flight : ProcessedFlightData) : string :=
  origin flight +:+ "-" +:+ destination flight.

(** The [forEach] of [analyzePatterns] that fills [routeCounts]. *)
Definition countRoute (routeCounts : list (string * Z)) (flight : ProcessedFlightData)
    : list (string * Z) :=
  let route := routeOf flight in
  keymap_set route (default 0 (keymap_get route routeCounts) + 1) routeCounts.

Definition routeCounts (flightData : list ProcessedFlightData) : list (string * Z) :=
  fold_left countRoute flightData [].

(** The comparison function [(a, b) => b.frequency - a.frequency]. *)
Definition byFrequencyDesc (a b : RouteFrequency) : Z := frequency b - frequency a.

(** The [popularRoutes] of [analyzePatterns]; [slice(0, 5)] keeps the first
    five. *)
Definition popularRoutes (flightData : list ProcessedFlightData) : list RouteFrequency :=
  take 5
    (array_sort byFrequencyDesc
       (map (fun '(route, frequency) => {| route := route; frequency := frequency |})
            (routeCounts flightData))).

End FlightData.

(** A log with every flight in the hour after midnight, and one with every
    flight in the small hours. *)
Definition midnightLog : list ProcessedFlightData :=
  zip_with atHour [0; 0; 0; 0; 0] simulatedData.

Definition nightLog : list ProcessedFlightData :=
  zip_with atHour [1; 2; 2; 5; 3] simulatedData.


(** * Properties *)

(** ** The insertion-ordered map *)

Lemma JsMap_get_tabulate (g : Z -> Z) (ks : list Z) (k : Z) :
  JsMap.get k (map (fun h => (h, g h)) ks)
  = if decide (k ∈ ks) then Some (g k) else None.
Proof.
  induction ks as [|x ks IH]; simpl.
  - reflexivity.
  - destruct (Z.eqb_spec k x) as [->|Hne].
    + rewrite decide_True by left. reflexivity.
    + rewrite IH. destruct (decide (k ∈ ks)) as [Hin|Hin].
      * rewrite decide_True by (right; exact Hin). reflexivity.
      * rewrite decide_False; [reflexivity|].
        intros [->|?]%elem_of_cons; [congruence|contradiction].
Qed.

Lemma JsMap_set_tabulate_new (g : Z -> Z) (ks : list Z) (k v : Z) :
  k ∉ ks ->
  JsMap.set k v (map (fun h => (h, g h)) ks)
  = map (fun h => (h, g h)) ks ++ [(k, v)].
Proof.
  induction ks as [|x ks IH]; simpl; intros Hin.
  - reflexivity.
  - apply not_elem_of_cons in Hin as [Hne Hin].
    destruct (Z.eqb_spec k x) as [->|_]; [congruence|].
    rewrite IH by exact Hin. reflexivity.
Qed.

Lemma JsMap_set_tabulate_old (g g' : Z -> Z) (ks : list Z) (k v : Z) :
  k ∈ ks -> NoDup ks ->
  g' k = v -> (forall h, h ≠ k -> g' h = g h) ->
  JsMap.set k v (map (fun h => (h, g h)) ks) = map (fun h => (h, g' h)) ks.
Proof.
  intros Hin Hnd Hk Hother.
  induction Hnd as [|x ks Hx Hnd IH]; simpl.
  - inversion Hin.
  - destruct (Z.eqb_spec k x) as [->|Hne].
    + rewrite Hk. f_equal.
      apply map_ext_in. intros h Hh%list_elem_of_In.
      rewrite Hother; [reflexivity|]. intros ->. contradiction.
    + rewrite Hother by congruence. f_equal.
      apply IH. apply elem_of_cons in Hin as [->|Hin]; [congruence|exact Hin].
Qed.

(** ** First occurrences *)

Lemma firstOccurrences_elem_of (hs : list Z) (h : Z) :
  h ∈ firstOccurrences hs <-> h ∈ hs.
Proof.
  induction hs as [|x hs IH]; simpl.
  - reflexivity.
  - rewrite !elem_of_cons, list_elem_of_filter, IH.
    destruct (decide (h = x)); intuition.
Qed.

Lemma firstOccurrences_NoDup (hs : list Z) : NoDup (firstOccurrences hs).
Proof.
  induction hs as [|x hs IH]; simpl.
  - constructor.
  - constructor.
    + rewrite list_elem_of_filter. intros [Hne _]. congruence.
    + apply NoDup_filter, IH.
Qed.

Lemma firstOccurrences_snoc (hs : list Z) (h : Z) :
  firstOccurrences (hs ++ [h])
  = if decide (h ∈ hs) then firstOccurrences hs else firstOccurrences hs ++ [h].
Proof.
  induction hs as [|x hs IH].
  - case_decide as Hin; [inversion Hin|reflexivity].
  - change (firstOccurrences ((x :: hs) ++ [h]))
      with (x :: filter (fun y => y ≠ x) (firstOccurrences (hs ++ [h]))).
    change (firstOccurrences (x :: hs))
      with (x :: filter (fun y => y ≠ x) (firstOccurrences hs)).
    rewrite IH. destruct (decide (h ∈ hs)) as [Hin|Hin].
    + rewrite decide_True by (right; exact Hin). reflexivity.
    + destruct (decide (h = x)) as [->|Hne].
      * rewrite decide_True by left.
        rewrite filter_app, filter_cons_False, filter_nil, app_nil_r
          by (intros H; congruence).
        reflexivity.
      * rewrite decide_False
          by (intros [?|?]%elem_of_cons; [congruence|contradiction]).
        rewrite filter_app, filter_cons_True, filter_nil by exact Hne.
        reflexivity.
Qed.

(** ** The hourly counts *)

Lemma hourCount_nil (h : Z) : hourCount h [] = 0.
Proof. reflexivity. Qed.

Lemma hourCount_cons (h : Z) (f : ProcessedFlightData) (l : list ProcessedFlightData) :
  hourCount h (f :: l)
  = (if decide (scheduledHour f = h) then 1 else 0) + hourCount h l.
Proof.
  unfold hourCount, count. simpl.
  destruct (Z.eqb_spec (scheduledHour f) h) as [Heq|Hne].
  - rewrite decide_True by exact Heq. simpl length. lia.
  - rewrite decide_False by exact Hne. lia.
Qed.

Lemma hourCount_app (h : Z) (l1 l2 : list ProcessedFlightData) :
  hourCount h (l1 ++ l2) = hourCount h l1 + hourCount h l2.
Proof.
  induction l1 as [|f l1 IH].
  - rewrite hourCount_nil. simpl. lia.
  - simpl app. rewrite !hourCount_cons, IH. lia.
Qed.

Lemma hourCount_nonneg (h : Z) (l : list ProcessedFlightData) : 0 <= hourCount h l.
Proof. unfold hourCount, count. lia. Qed.

Lemma hourCount_absent (h : Z) (l : list ProcessedFlightData) :
  h ∉ hoursOf l -> hourCount h l = 0.
Proof.
  induction l as [|f l IH]; intros Hin.
  - reflexivity.
  - unfold hoursOf in Hin. simpl in Hin. apply not_elem_of_cons in Hin as [Hne Hin].
    rewrite hourCount_cons, decide_False by congruence.
    rewrite IH by exact Hin. reflexivity.
Qed.

Lemma hourCount_present (h : Z) (l : list ProcessedFlightData) :
  h ∈ hoursOf l -> 0 < hourCount h l.
Proof.
  induction l as [|f l IH]; intros Hin.
  - inversion Hin.
  - rewrite hourCount_cons.
    destruct (decide (scheduledHour f = h)) as [Heq|Hne].
    + pose proof (hourCount_nonneg h l). lia.
    + unfold hoursOf in Hin. simpl in Hin.
      apply elem_of_cons in Hin as [->|Hin]; [congruence|].
      specialize (IH Hin). lia.
Qed.

Lemma hourlyCounts_snoc (l : list ProcessedFlightData) (f : ProcessedFlightData) :
  hourlyCounts (l ++ [f]) = countHour (hourlyCounts l) f.
Proof. unfold hourlyCounts. rewrite fold_left_app. reflexivity. Qed.

(** The map built by the first [forEach]: one entry per hour of the log, in
    the order in which the hours first occur, holding the number of records
    of that hour. *)
Lemma hourlyCounts_closed_form (l : list ProcessedFlightData) :
  hourlyCounts l
  = map (fun h => (h, hourCount h l)) (firstOccurrences (hoursOf l)).
Proof.
  induction l as [|f l IH] using rev_ind.
  - reflexivity.
  - rewrite hourlyCounts_snoc. unfold countHour. rewrite IH.
    rewrite JsMap_get_tabulate.
    assert (Hsnoc : hoursOf (l ++ [f]) = hoursOf l ++ [scheduledHour f])
      by (unfold hoursOf; rewrite map_app; reflexivity).
    rewrite Hsnoc, firstOccurrences_snoc. clear Hsnoc.
    set (hf := scheduledHour f).
    destruct (decide (hf ∈ firstOccurrences (hoursOf l))) as [Hin|Hin].
    + rewrite decide_True by (apply firstOccurrences_elem_of; exact Hin).
      simpl default.
      apply JsMap_set_tabulate_old.
      * exact Hin.
      * apply firstOccurrences_NoDup.
      * rewrite hourCount_app, hourCount_cons, hourCount_nil.
        rewrite decide_True by reflexivity. lia.
      * intros h Hne. rewrite hourCount_app, hourCount_cons, hourCount_nil.
        rewrite decide_False by (subst hf; congruence). lia.
    + assert (Hout : hf ∉ hoursOf l)
        by (intros H; apply Hin, firstOccurrences_elem_of, H).
      rewrite decide_False by exact Hout.
      simpl default.
      rewrite JsMap_set_tabulate_new by exact Hin.
      rewrite map_app. simpl map at 3.
      rewrite hourCount_app, hourCount_cons, hourCount_nil.
      rewrite decide_True by reflexivity.
      rewrite (hourCount_absent hf l) by exact Hout.
      f_equal.
      apply map_ext_in. intros h Hh%list_elem_of_In.
      rewrite hourCount_app, hourCount_cons, hourCount_nil.
      rewrite decide_False; [f_equal; lia|].
      fold hf. intros <-. contradiction.
Qed.



(** ** The peak *)

Lemma findPeak_fold (m : list (Z * Z)) (h0 c0 : Z) :
  let '(h, c) := fold_left peakStep m (h0, c0) in
  (h = h0 /\ c = c0 /\ Forall (fun e => snd e <= c0) m)
  \/ (exists m1 m2, m = m1 ++ (h, c) :: m2 /\ c0 < c
        /\ Forall (fun e => snd e < c) m1 /\ Forall (fun e => snd e <= c) m2).
Proof.
  revert h0 c0. induction m as [|[k v] m IH]; intros h0 c0; simpl.
  - left. split_and!; [reflexivity|reflexivity|constructor].
  - destruct (Z.ltb_spec c0 v) as [Hlt|Hge].
    + specialize (IH k v). destruct (fold_left peakStep m (k, v)) as [h c].
      right. destruct IH as [(-> & -> & Hall)|(m1 & m2 & -> & Hc & H1 & H2)].
      * exists [], m. split_and!; [reflexivity|exact Hlt|constructor|exact Hall].
      * exists ((k, v) :: m1), m2. split_and!; [reflexivity|lia| |exact H2].
        constructor; [simpl; lia|exact H1].
    + specialize (IH h0 c0). destruct (fold_left peakStep m (h0, c0)) as [h c].
      destruct IH as [(-> & -> & Hall)|(m1 & m2 & -> & Hc & H1 & H2)].
      * left. split_and!; [reflexivity|reflexivity|].
        constructor; [simpl; lia|exact Hall].
      * right. exists ((k, v) :: m1), m2.
        split_and!; [reflexivity|exact Hc| |exact H2].
        constructor; [simpl; lia|exact H1].
Qed.

Lemma airportStatistics_peak (l : list ProcessedFlightData) :
  (peakHour (airportStatistics l), peakFlights (airportStatistics l))
  = findPeak (hourlyCounts l).
Proof.
  unfold airportStatistics. destruct (findPeak (hourlyCounts l)). reflexivity.
Qed.

Lemma airportStatistics_peak_nil :
  peakHour (airportStatistics []) = 0 /\ peakFlights (airportStatistics []) = 0.
Proof. split; reflexivity. Qed.

(** On a log that is not empty the second [forEach] stops on an entry of the
    map: every entry before it is strictly smaller, none is larger. *)
Lemma findPeak_entry (l : list ProcessedFlightData) :
  l ≠ [] ->
  exists a b,
    firstOccurrences (hoursOf l) = a ++ peakHour (airportStatistics l) :: b
    /\ peakFlights (airportStatistics l) = hourCount (peakHour (airportStatistics l)) l
    /\ (forall h, h ∈ a -> hourCount h l < peakFlights (airportStatistics l))
    /\ (forall h, h ∈ b -> hourCount h l <= peakFlights (airportStatistics l)).
Proof.
  intros Hne.
  pose proof (airportStatistics_peak l) as Hpeak.
  pose proof (findPeak_fold (hourlyCounts l) 0 0) as Hfold.
  unfold findPeak, JsMap.entries in Hpeak. rewrite <- Hpeak in Hfold.
  rewrite hourlyCounts_closed_form in Hfold.
  destruct Hfold as [(_ & _ & Hall)|(m1 & m2 & Hsplit & _ & H1 & H2)].
  - exfalso. destruct l as [|f l]; [congruence|].
    simpl in Hall. apply Forall_cons in Hall as [Hhead _]. simpl in Hhead.
    assert (0 < hourCount (scheduledHour f) (f :: l))
      by (apply hourCount_present; left).
    lia.
  - apply map_eq_app in Hsplit as (a & b' & Hfirst & <- & Hrest).
    destruct b' as [|h b]; [discriminate|]. simpl in Hrest.
    injection Hrest as Hh Hc <-. subst h.
    exists a, b. split; [exact Hfirst|]. split; [symmetry; exact Hc|]. split.
    + intros h Hin. rewrite Forall_forall in H1.
      apply (H1 (h, hourCount h l)).
      apply (list_elem_of_fmap_2 (fun h => (h, hourCount h l))), Hin.
    + intros h Hin. rewrite Forall_forall in H2.
      apply (H2 (h, hourCount h l)).
      apply (list_elem_of_fmap_2 (fun h => (h, hourCount h l))), Hin.
Qed.


(** ** The stable sort *)

Section SortFacts.
(** A comparison function that orders by decreasing [key]. *)
Context {A : Type} (key : A -> Z) (cmp : A -> A -> Z).
Hypothesis cmp_key : forall x y, cmp x y = key y - key x.

Lemma sort_insert_Permutation (x : A) (l : list A) :
  sort_insert cmp x l ≡ₚ x :: l.
Proof.
  induction l as [|y l IH]; simpl.
  - reflexivity.
  - destruct (Z.leb (cmp x y) 0).
    + reflexivity.
    + rewrite IH. apply Permutation_swap.
Qed.

Lemma array_sort_Permutation (l : list A) : array_sort cmp l ≡ₚ l.
Proof.
  induction l as [|x l IH]; simpl.
  - reflexivity.
  - rewrite sort_insert_Permutation, IH. reflexivity.
Qed.

Lemma sort_insert_sorted (x : A) (l : list A) :
  StronglySorted (fun a b => key b <= key a) l ->
  StronglySorted (fun a b => key b <= key a) (sort_insert cmp x l).
Proof.
  induction 1 as [|y l Hl IH Hy]; simpl.
  - repeat constructor.
  - destruct (Z.leb_spec (cmp x y) 0) as [Hle|Hgt];
      [rewrite cmp_key in Hle|rewrite cmp_key in Hgt].
    + constructor; [constructor; assumption|].
      constructor; [lia|].
      eapply Forall_impl; [exact Hy|]. simpl. intros z Hz. lia.
    + constructor; [exact IH|].
      rewrite sort_insert_Permutation. constructor; [lia|exact Hy].
Qed.

Lemma array_sort_sorted (l : list A) :
  StronglySorted (fun a b => key b <= key a) (array_sort cmp l).
Proof.
  induction l as [|x l IH]; simpl.
  - constructor.
  - apply sort_insert_sorted, IH.
Qed.


End SortFacts.

(** ** Arithmetic of [number] *)

Lemma Qis_zero_inject_Z (z : Z) : Qis_zero (inject_Z z) = Z.eqb z 0.
Proof.
  unfold Qis_zero, Qeq_bool, inject_Z. simpl.
  rewrite Z.mul_1_r. reflexivity.
Qed.

Lemma num_div_zero_zero : num_div (of_Z 0) (of_Z 0) = NaN.
Proof. reflexivity. Qed.



Lemma fold_left_max_ge (vs : list Z) (v : Z) :
  v <= fold_left Z.max vs v /\ Forall (fun x => x <= fold_left Z.max vs v) vs.
Proof.
  revert v. induction vs as [|x vs IH]; intros v; simpl.
  - split; [lia|constructor].
  - destruct (IH (Z.max v x)) as [Hv Hall]. split; [lia|].
    constructor; [lia|exact Hall].
Qed.

Lemma fold_left_max_elem (vs : list Z) (v : Z) :
  fold_left Z.max vs v ∈ v :: vs.
Proof.
  revert v. induction vs as [|x vs IH]; intros v; simpl.
  - left.
  - specialize (IH (Z.max v x)).
    apply elem_of_cons in IH as [Heq|Hin].
    + rewrite Heq. destruct (Z.max_spec v x) as [[_ ->]|[_ ->]].
      * right. left.
      * left.
    + right. right. exact Hin.
Qed.

(** ** The peak-hour analysis *)

(** The bucket that the [map] of [getPeakHourAnalysis] builds for hour [h]. *)
Lemma peakBuckets_closed_form (l : list ProcessedFlightData) :
  peakBuckets l
  = map (fun h =>
           {| hour := h;
              flightCount := hourCount h l;
              utilization :=
                Math_round
                  (num_mul (num_div (of_Z (hourCount h l))
                                    (Math_max (JsMap.values (hourlyCounts l))))
                           (of_Z 100)) |})
        (firstOccurrences (hoursOf l)).
Proof.
  unfold peakBuckets, JsMap.entries. cbv zeta.
  generalize (Math_max (JsMap.values (hourlyCounts l))). intros maxFlights.
  rewrite hourlyCounts_closed_form, map_map. reflexivity.
Qed.


Lemma hourlyCounts_values (l : list ProcessedFlightData) :
  JsMap.values (hourlyCounts l)
  = map (fun h => hourCount h l) (firstOccurrences (hoursOf l)).
Proof.
  unfold JsMap.values. rewrite hourlyCounts_closed_form, map_map. reflexivity.
Qed.

(** [maxFlights] is the greatest of the counts. *)
Lemma maxFlights_greatest (l : list ProcessedFlightData) :
  l ≠ [] ->
  exists m,
    Math_max (JsMap.values (hourlyCounts l)) = of_Z m
    /\ (exists h, h ∈ hoursOf l /\ hourCount h l = m)
    /\ (forall h, h ∈ hoursOf l -> hourCount h l <= m).
Proof.
  intros Hne. rewrite hourlyCounts_values.
  destruct l as [|f l]; [congruence|].
  pose proof (firstOccurrences_elem_of (hoursOf (f :: l))) as Hmem.
  destruct (firstOccurrences (hoursOf (f :: l))) as [|h0 hs] eqn:Hfirst.
  - exfalso. apply (not_elem_of_nil (scheduledHour f)), Hmem. left.
  - simpl map. unfold Math_max.
    set (g := fun h => hourCount h (f :: l)).
    exists (fold_left Z.max (map g hs) (g h0)).
    split; [reflexivity|]. split.
    + pose proof (fold_left_max_elem (map g hs) (g h0)) as Hin.
      change (g h0 :: map g hs) with (map g (h0 :: hs)) in Hin.
      apply list_elem_of_fmap in Hin as (h & Heq & Hh).
      exists h. split; [apply Hmem, Hh|symmetry; exact Heq].
    + intros h Hh. apply Hmem in Hh.
      destruct (fold_left_max_ge (map g hs) (g h0)) as [H0 Hall].
      apply elem_of_cons in Hh as [->|Hh]; [exact H0|].
      rewrite Forall_forall in Hall. apply Hall.
      apply (list_elem_of_fmap_2 g), Hh.
Qed.


Lemma peakHourAnalysis_Permutation (l : list ProcessedFlightData) :
  peakHourAnalysis l ≡ₚ peakBuckets l.
Proof. apply array_sort_Permutation. Qed.


(** ** The delay distribution *)

Lemma airportStatistics_fields (l : list ProcessedFlightData) :
  totalFlights (airportStatistics l) = Z.of_nat (length l)
  /\ delayedFlights (airportStatistics l) = count isDelayed l
  /\ delayDistribution (airportStatistics l)
     = {| minor := count isMinor l;
          major := count isMajor l;
          critical := count isCritical l |}.
Proof.
  unfold airportStatistics. destruct (findPeak (hourlyCounts l)).
  split_and!; reflexivity.
Qed.

Lemma count_cons (p : ProcessedFlightData -> bool) (f : ProcessedFlightData)
    (l : list ProcessedFlightData) :
  count p (f :: l) = (if p f then 1 else 0) + count p l.
Proof.
  unfold count. simpl. destruct (p f); simpl length; lia.
Qed.






(** ** Running the methods *)

Section ProcessorFacts.
Context {Err : Type} (source : string -> Err + list ProcessedFlightData).

Implicit Types (airportCode : string) (now : Z) (s : FlightDataProcessor).

(** A fresh entry is returned as it is: no call to the source, no write. *)
Lemma getFlightData_hit airportCode now s cachedData :
  cacheHit airportCode now s = Some cachedData ->
  getFlightData source airportCode now s = (inr cachedData, s, []).
Proof.
  intros Hhit. unfold getFlightData, bind, this. rewrite Hhit. reflexivity.
Qed.

(** Otherwise the source is called once, and when it answers, its answer is
    stored under the key ["BOM"] with the time of the call. *)
Lemma getFlightData_miss airportCode now s freshData :
  cacheHit airportCode now s = None ->
  source defaultFilePath = inr freshData ->
  getFlightData source airportCode now s
  = (inr freshData,
     {| dataCache := <["BOM" := freshData]> (dataCache s);
        lastUpdated := <["BOM" := now]> (lastUpdated s) |},
     [SourceCall defaultFilePath]).
Proof.
  intros Hmiss Hsource.
  unfold getFlightData, bind, this. rewrite Hmiss.
  unfold loadFlightDataFromCSV, try_catch, bind, await_source.
  rewrite Hsource. reflexivity.
Qed.

(** When the source fails, the error is logged and thrown again. *)
Lemma getFlightData_miss_failure airportCode now s error :
  cacheHit airportCode now s = None ->
  source defaultFilePath = inl error ->
  getFlightData source airportCode now s
  = (inl error, s,
     [SourceCall defaultFilePath;
      ConsoleError "Error loading flight data:" error]).
Proof.
  intros Hmiss Hsource.
  unfold getFlightData, bind, this. rewrite Hmiss.
  unfold loadFlightDataFromCSV, try_catch, bind, await_source.
  rewrite Hsource. reflexivity.
Qed.

Lemma getAirportStatistics_fulfilled airportCode now s flightData s' trace :
  getFlightData source airportCode now s = (inr flightData, s', trace) ->
  getAirportStatistics source airportCode now s
  = (inr (airportStatistics flightData), s', trace).
Proof.
  intros Hget. unfold getAirportStatistics, bind. rewrite Hget.
  simpl. rewrite app_nil_r. reflexivity.
Qed.

Lemma getPeakHourAnalysis_fulfilled airportCode now s flightData s' trace :
  getFlightData source airportCode now s = (inr flightData, s', trace) ->
  getPeakHourAnalysis source airportCode now s
  = (inr (peakHourAnalysis flightData), s', trace).
Proof.
  intros Hget. unfold getPeakHourAnalysis, bind. rewrite Hget.
  simpl. rewrite app_nil_r. reflexivity.
Qed.

(** [getRealTimeUpdates] stores what it returns under the code it was asked
    for, with the time of the call. *)
Lemma getRealTimeUpdates_fulfilled airportCode now random s flightData s' trace :
  getFlightData source airportCode now s = (inr flightData, s', trace) ->
  getRealTimeUpdates source airportCode now random s
  = (inr (updateFlights random 0 flightData),
     {| dataCache :=
          <[airportCode := updateFlights random 0 flightData]> (dataCache s');
        lastUpdated := <[airportCode := now]> (lastUpdated s') |},
     trace).
Proof.
  intros Hget. unfold getRealTimeUpdates, bind. rewrite Hget.
  simpl. rewrite app_nil_r. reflexivity.
Qed.

Lemma methods_rejected airportCode now random s error s' trace :
  getFlightData source airportCode now s = (inl error, s', trace) ->
  getAirportStatistics source airportCode now s = (inl error, s', trace)
  /\ getPeakHourAnalysis source airportCode now s = (inl error, s', trace)
  /\ getRealTimeUpdates source airportCode now random s = (inl error, s', trace).
Proof.
  intros Hget.
  unfold getAirportStatistics, getPeakHourAnalysis, getRealTimeUpdates, bind.
  rewrite Hget. split_and!; reflexivity.
Qed.

(** A method never fails when the source does not. *)
Lemma getFlightData_total airportCode now s :
  (exists flightData s' trace,
     getFlightData source airportCode now s = (inr flightData, s', trace))
  \/ (exists error,
        source defaultFilePath = inl error
        /\ getFlightData source airportCode now s
           = (inl error, s,
              [SourceCall defaultFilePath;
               ConsoleError "Error loading flight data:" error])).
Proof.
  destruct (cacheHit airportCode now s) as [cachedData|] eqn:Hhit.
  - left. eauto using getFlightData_hit.
  - destruct (source defaultFilePath) as [error|freshData] eqn:Hsource.
    + right. eauto using getFlightData_miss_failure.
    + left. eauto using getFlightData_miss.
Qed.

(** C8.  When a refresh is due and the source fails, [getFlightData] is
    rejected with the error of the source, the processor is left as it
    was, cache entries and timestamps included, and the source has been
    called once and not again; the three methods built on [getFlightData]
    are rejected in the same way. *)
Theorem source_failure_surfaces airportCode now random s error :
  cacheHit airportCode now s = None ->
  source defaultFilePath = inl error ->
  let trace :=
    [SourceCall defaultFilePath;
     ConsoleError "Error loading flight data:" error] in
  getFlightData source airportCode now s = (inl error, s, trace)
  /\ getAirportStatistics source airportCode now s = (inl error, s, trace)
  /\ getPeakHourAnalysis source airportCode now s = (inl error, s, trace)
  /\ getRealTimeUpdates source airportCode now random s = (inl error, s, trace).
Proof.
  intros Hmiss Hsource trace. subst trace.
  pose proof (getFlightData_miss_failure _ _ _ _ Hmiss Hsource) as Hget.
  split; [exact Hget|]. apply methods_rejected, Hget.
Qed.
End ProcessorFacts.

Lemma source_failure_surfaces_witness :
  cacheHit "BOM" (5 * 60 * 1000) loadedProcessor = None
  /\ getFlightData failingSource "BOM" (5 * 60 * 1000) loadedProcessor
     = (inl "ENOENT", loadedProcessor,
        [SourceCall defaultFilePath;
         ConsoleError "Error loading flight data:" "ENOENT"]).
Proof.
  split; [reflexivity|].
  apply (source_failure_surfaces failingSource "BOM" (5 * 60 * 1000) randomHalf
           loadedProcessor "ENOENT"); reflexivity.
Defined.

(** ** The freshness window *)

Section Freshness.
Context {Err : Type} (source : string -> Err + list ProcessedFlightData).

Lemma cacheHit_Some airportCode now s cachedData :
  cacheHit airportCode now s = Some cachedData
  <-> dataCache s !! airportCode = Some cachedData
      /\ exists lastUpdate,
           lastUpdated s !! airportCode = Some lastUpdate
           /\ now - lastUpdate < 5 * 60 * 1000.
Proof.
  unfold cacheHit.
  destruct (dataCache s !! airportCode) as [data|];
    destruct (lastUpdated s !! airportCode) as [t|];
    try (split; [discriminate|intros [? (? & ? & ?)]; congruence]).
  destruct (Z.ltb_spec (now - t) (5 * 60 * 1000)) as [Hlt|Hge].
  - split.
    + intros [= ->]. split; [reflexivity|]. exists t. split; [reflexivity|exact Hlt].
    + intros [[= ->] _]. reflexivity.
  - split; [discriminate|].
    intros [_ (t' & [= <-] & Hlt)]. lia.
Qed.

(** For the code ["BOM"] the cache works as a cache: after a refresh at
    time [now], a call less than five minutes later returns the stored
    sequence and does not call the source, and a call from five minutes on
    calls the source once more. *)
Lemma getFlightData_BOM_window now now' s freshData :
  cacheHit "BOM" now s = None ->
  source defaultFilePath = inr freshData ->
  let s1 := (getFlightData source "BOM" now s).1.2 in
  (now' - now < 5 * 60 * 1000 ->
     getFlightData source "BOM" now' s1 = (inr freshData, s1, []))
  /\ (5 * 60 * 1000 <= now' - now ->
        (getFlightData source "BOM" now' s1).2 = [SourceCall defaultFilePath]).
Proof.
  intros Hmiss Hsource s1. subst s1.
  rewrite (getFlightData_miss source _ _ _ _ Hmiss Hsource). simpl.
  split.
  - intros Hyoung. apply getFlightData_hit.
    unfold cacheHit. simpl. rewrite !lookup_insert_eq.
    destruct (Z.ltb_spec (now' - now) (5 * 60 * 1000)); [reflexivity|lia].
  - intros Hold.
    rewrite (getFlightData_miss source _ _ _ freshData); [reflexivity| |exact Hsource].
    unfold cacheHit. simpl. rewrite !lookup_insert_eq.
    destruct (Z.ltb_spec (now' - now) (5 * 60 * 1000)); [lia|reflexivity].
Qed.

(** For any other code the refresh does not write the entry of that code:
    what was missing is still missing, so the next call asks the source
    again however soon it comes. *)
Lemma getFlightData_other_code airportCode now now' s freshData :
  airportCode ≠ "BOM" ->
  dataCache s !! airportCode = None ->
  source defaultFilePath = inr freshData ->
  let s1 := (getFlightData source airportCode now s).1.2 in
  dataCache s1 !! airportCode = None
  /\ (getFlightData source airportCode now' s1).2 = [SourceCall defaultFilePath].
Proof.
  intros Hcode Hnone Hsource s1. subst s1.
  assert (Hmiss : forall t, cacheHit airportCode t s = None)
    by (intros t; unfold cacheHit; rewrite Hnone; reflexivity).
  rewrite (getFlightData_miss source _ _ _ _ (Hmiss now) Hsource). simpl.
  assert (Hstill : (<["BOM" := freshData]> (dataCache s)) !! airportCode = None)
    by (rewrite lookup_insert_ne by congruence; exact Hnone).
  split; [exact Hstill|].
  rewrite (getFlightData_miss source _ _ _ freshData); [reflexivity| |exact Hsource].
  unfold cacheHit. simpl. rewrite Hstill. reflexivity.
Qed.
End Freshness.

(** C1.  Asked for ["DEL"] on a new processor at time 0 and again one
    millisecond later, [getFlightData] calls the source both times: the
    refresh has stored the sequence under ["BOM"], and there is still no
    entry for ["DEL"] after either call. *)
Theorem getFlightData_DEL_not_cached :
  let first := getFlightData (Err := string) shippedSource "DEL" 0 newProcessor in
  let second := getFlightData (Err := string) shippedSource "DEL" 1 first.1.2 in
  first.1.1 = inr simulatedData
  /\ first.2 = [SourceCall defaultFilePath]
  /\ dataCache first.1.2 !! "DEL" = None
  /\ dataCache first.1.2 !! "BOM" = Some simulatedData
  /\ lastUpdated first.1.2 !! "BOM" = Some 0
  /\ second.1.1 = inr simulatedData
  /\ second.2 = [SourceCall defaultFilePath]
  /\ dataCache second.1.2 !! "DEL" = None
  /\ lastUpdated second.1.2 !! "DEL" = None.
Proof. vm_compute. split_and!; reflexivity. Qed.

(** ** Statistics of particular logs *)

Lemma airportStatistics_nil :
  airportStatistics []
  = {| totalFlights := 0; delayedFlights := 0; avgDelay := NaN;
       peakHour := 0; peakFlights := 0;
       delayDistribution := {| minor := 0; major := 0; critical := 0 |};
       capacityUtilization := NaN |}.
Proof. reflexivity. Qed.

Lemma totalFlights_zero (l : list ProcessedFlightData) :
  totalFlights (airportStatistics l) = 0 -> l = [].
Proof.
  destruct (airportStatistics_fields l) as (-> & _).
  destruct l; [reflexivity|simpl; lia].
Qed.

Lemma peakFlights_zero (l : list ProcessedFlightData) :
  peakFlights (airportStatistics l) = 0 -> l = [].
Proof.
  intros Hzero. destruct l as [|f l]; [reflexivity|exfalso].
  destruct (findPeak_entry (f :: l)) as (a & b & Hfirst & Hcount & _);
    [discriminate|].
  assert (Hin : peakHour (airportStatistics (f :: l)) ∈ hoursOf (f :: l)).
  { apply firstOccurrences_elem_of. rewrite Hfirst.
    apply elem_of_app. right. left. }
  apply hourCount_present in Hin. lia.
Qed.

(** The claim of C2 fails on a source whose log is empty: the call is
    fulfilled, but the two ratios are [0 / 0], which is [NaN] and not 0. *)
Lemma getAirportStatistics_empty_log_not_zero :
  exists stats s trace,
    getAirportStatistics emptySource "BOM" 0 newProcessor = (inr stats, s, trace)
    /\ totalFlights stats = 0
    /\ peakFlights stats = 0
    /\ avgDelay stats = NaN
    /\ capacityUtilization stats = NaN
    /\ ~ (exists q, avgDelay stats = Num q)
    /\ ~ (exists q, capacityUtilization stats = Num q).
Proof.
  eexists _, _, _. split; [reflexivity|].
  split_and!; try reflexivity; intros [q Hq]; discriminate Hq.
Qed.

(** C2, amended.  When the flight log is empty, which is the only case in
    which [totalFlights] or [peakFlights] is 0, [getAirportStatistics] raises
    no error: it is fulfilled, with [avgDelay] and [capacityUtilization] both
    [NaN]. *)
Theorem getAirportStatistics_empty_log {Err : Type}
    (source : string -> Err + list ProcessedFlightData)
    (airportCode : string) (now : Z) (s s' : FlightDataProcessor)
    (flightData : list ProcessedFlightData) (trace : list (Event Err)) :
  getFlightData source airportCode now s = (inr flightData, s', trace) ->
  totalFlights (airportStatistics flightData) = 0
  \/ peakFlights (airportStatistics flightData) = 0 ->
  flightData = []
  /\ exists stats,
       getAirportStatistics source airportCode now s = (inr stats, s', trace)
       /\ totalFlights stats = 0
       /\ peakFlights stats = 0
       /\ avgDelay stats = NaN
       /\ capacityUtilization stats = NaN.
Proof.
  intros Hget Hzero.
  assert (Hnil : flightData = [])
    by (destruct Hzero; [apply totalFlights_zero|apply peakFlights_zero]; assumption).
  subst flightData. split; [reflexivity|].
  exists (airportStatistics []).
  split; [apply getAirportStatistics_fulfilled, Hget|].
  split_and!; reflexivity.
Qed.

Lemma getAirportStatistics_empty_log_witness :
  exists stats,
    getAirportStatistics emptySource "BOM" 0 newProcessor
    = (inr stats,
       {| dataCache := <["BOM" := []]> ∅; lastUpdated := <["BOM" := 0]> ∅ |},
       [SourceCall defaultFilePath])
    /\ totalFlights stats = 0
    /\ peakFlights stats = 0
    /\ avgDelay stats = NaN
    /\ capacityUtilization stats = NaN.
Proof.
  apply (getAirportStatistics_empty_log emptySource "BOM" 0 newProcessor _ []).
  - reflexivity.
  - left. reflexivity.
Defined.

(** C5.  The simulated loader produces five flights with the delays 20, 17,
    8, 0 and 44, all scheduled in hour 6, and on a new processor, for any
    airport code and at any time, [getAirportStatistics] returns for them
    5 flights, 4 of them delayed, an average delay of 17.8, the distribution
    2 minor, 3 major, 0 critical, peak hour 6 with 5 flights, and a capacity
    utilization of 4.17. *)
Theorem getAirportStatistics_simulated {Err : Type} (airportCode : string) (now : Z) :
  map delayMinutes (simulateCSVLoading defaultFilePath)
  = [Some 20; Some 17; Some 8; Some 0; Some 44]
  /\ map scheduledHour (simulateCSVLoading defaultFilePath) = [6; 6; 6; 6; 6]
  /\ (getAirportStatistics (Err := Err) shippedSource airportCode now newProcessor).1.1
     = inr {| totalFlights := 5; delayedFlights := 4; avgDelay := Num (89 # 5);
              peakHour := 6; peakFlights := 5;
              delayDistribution := {| minor := 2; major := 3; critical := 0 |};
              capacityUtilization := Num (417 # 100) |}
  /\ (89 # 5 == 17.8)%Q
  /\ (417 # 100 == 4.17)%Q.
Proof.
  split; [reflexivity|]. split; [reflexivity|].
  split; [|split; reflexivity].
  rewrite (getAirportStatistics_fulfilled shippedSource airportCode now newProcessor
             simulatedData
             {| dataCache := <["BOM" := simulatedData]> ∅;
                lastUpdated := <["BOM" := now]> ∅ |}
             [SourceCall defaultFilePath]).
  - vm_compute. reflexivity.
  - apply getFlightData_miss; [|reflexivity].
    unfold cacheHit. simpl. rewrite lookup_empty. reflexivity.
Qed.

(** ** The real-time perturbation *)


Example randomDelay_least : randomDelay 0 = -15.
Proof. reflexivity. Qed.

Example randomDelay_greatest : randomDelay (2999 # 3000) = 14.
Proof. reflexivity. Qed.



Lemma perturb_fields (f : ProcessedFlightData) (d : Z) :
  sameOtherFields f (perturb f d)
  /\ delayMinutes (perturb f d) = Some (Z.max 0 (delayOrZero f + d))
  /\ status (perturb f d) = (if Z.ltb 0 d then DELAYED else status f).
Proof. unfold sameOtherFields. simpl. split_and!; reflexivity. Qed.

Lemma sameOtherFields_refl (f : ProcessedFlightData) : sameOtherFields f f.
Proof. unfold sameOtherFields. split_and!; reflexivity. Qed.

(** What the callback of the [map] returns for one record. *)
Lemma updateFlight_cases (random : nat -> Q) (n : nat) (f : ProcessedFlightData) :
  (selected (random n) = true
   /\ (updateFlight random n f).1 = perturb f (randomDelay (random (S n))))
  \/ (selected (random n) = false /\ (updateFlight random n f).1 = f).
Proof.
  unfold updateFlight. destruct (selected (random n)); [left|right]; split; reflexivity.
Qed.

(** The [map] returns, place for place, what the callback returns for the
    record at that place. *)
Lemma updateFlights_Forall2 (random : nat -> Q) (n : nat) (l : list ProcessedFlightData) :
  Forall2 (fun f g => exists k, g = (updateFlight random k f).1)
          l (updateFlights random n l).
Proof.
  revert n. induction l as [|f l IH]; intros n; simpl.
  - constructor.
  - destruct (updateFlight random n f) as [g n'] eqn:Hcall.
    constructor; [|apply IH].
    exists n. rewrite Hcall. reflexivity.
Qed.

(** The part of C3 that does hold: a selected record gets its delay, absent
    taken as 0, moved by the perturbation and raised to 0 if it fell below,
    its status becomes [DELAYED] when the perturbation is positive and is
    kept otherwise, and what is returned is what is stored, under the code
    asked for and with the time of the call. *)
Lemma getRealTimeUpdates_perturbs {Err : Type}
    (source : string -> Err + list ProcessedFlightData)
    (airportCode : string) (now : Z) (random : nat -> Q)
    (s s' : FlightDataProcessor) (flightData : list ProcessedFlightData)
    (trace : list (Event Err)) :
  getFlightData source airportCode now s = (inr flightData, s', trace) ->
  exists updatedData s'',
    getRealTimeUpdates source airportCode now random s = (inr updatedData, s'', trace)
    /\ dataCache s'' !! airportCode = Some updatedData
    /\ lastUpdated s'' !! airportCode = Some now
    /\ Forall2
         (fun f g => exists k,
            let d := randomDelay (random (S k)) in
            (selected (random k) = true
             /\ delayMinutes g = Some (Z.max 0 (delayOrZero f + d))
             /\ status g = (if Z.ltb 0 d then DELAYED else status f))
            \/ (selected (random k) = false /\ g = f))
         flightData updatedData.
Proof.
  intros Hget. eexists _, _.
  split; [apply getRealTimeUpdates_fulfilled, Hget|]. simpl.
  split; [apply lookup_insert_eq|]. split; [apply lookup_insert_eq|].
  eapply Forall2_impl; [apply updateFlights_Forall2|].
  intros f g [k ->]. exists k. simpl.
  destruct (updateFlight_cases random k f) as [[Hsel ->]|[Hsel ->]].
  - left. split; [exact Hsel|]. split; apply perturb_fields.
  - right. split; [exact Hsel|reflexivity].
Qed.

Lemma updateFlight_delay_not_negative (random : nat -> Q) (n : nat)
    (f : ProcessedFlightData) :
  delayNotNegative f -> delayNotNegative (updateFlight random n f).1.
Proof.
  intros Hf. destruct (updateFlight_cases random n f) as [[_ ->]|[_ ->]].
  - intros d Hd. destruct (perturb_fields f (randomDelay (random (S n))))
      as (_ & Hdelay & _).
    rewrite Hdelay in Hd. injection Hd as <-. lia.
  - exact Hf.
Qed.

Lemma updateFlights_delay_not_negative (random : nat -> Q) (n : nat)
    (l : list ProcessedFlightData) :
  Forall delayNotNegative l -> Forall delayNotNegative (updateFlights random n l).
Proof.
  intros Hl. pose proof (updateFlights_Forall2 random n l) as Hrel.
  induction Hrel as [|f g l l' [k ->] Hrel IH]; [constructor|].
  apply Forall_cons in Hl as [Hf Hl].
  constructor; [apply updateFlight_delay_not_negative, Hf|apply IH, Hl].
Qed.




(** C10.  The sequence that [getRealTimeUpdates] returns has the length of
    the log and, place for place, either the record of the log itself, when
    the record was not selected, or a record that has the same [id],
    [flightNumber], [origin], [destination], four timestamps, [aircraft],
    [airportCode], [scheduledHour], [dayOfWeek] and [flightDuration]. *)
Theorem getRealTimeUpdates_frame {Err : Type}
    (source : string -> Err + list ProcessedFlightData)
    (airportCode : string) (now : Z) (random : nat -> Q)
    (s s' : FlightDataProcessor) (flightData : list ProcessedFlightData)
    (trace : list (Event Err)) :
  getFlightData source airportCode now s = (inr flightData, s', trace) ->
  exists updatedData s'',
    getRealTimeUpdates source airportCode now random s = (inr updatedData, s'', trace)
    /\ length updatedData = length flightData
    /\ Forall2
         (fun f g => exists k,
            g = (updateFlight random k f).1
            /\ (selected (random k) = false -> g = f)
            /\ sameOtherFields f g)
         flightData updatedData.
Proof.
  intros Hget. eexists _, _.
  split; [apply getRealTimeUpdates_fulfilled, Hget|].
  assert (Hrel : Forall2 (fun f g => exists k, g = (updateFlight random k f).1)
                   flightData (updateFlights random 0 flightData))
    by apply updateFlights_Forall2.
  split; [symmetry; eapply Forall2_length, Hrel|].
  eapply Forall2_impl; [exact Hrel|].
  intros f g [k ->]. exists k. split; [reflexivity|].
  destruct (updateFlight_cases random k f) as [[Hsel ->]|[Hsel ->]].
  - split; [congruence|apply perturb_fields].
  - split; [reflexivity|apply sameOtherFields_refl].
Qed.

Lemma getRealTimeUpdates_frame_witness :
  exists updatedData s'',
    getRealTimeUpdates (Err := string) shippedSource "BOM" 0 randomLow newProcessor
    = (inr updatedData, s'', [SourceCall defaultFilePath])
    /\ length updatedData = length simulatedData
    /\ Forall2
         (fun f g => exists k,
            g = (updateFlight randomLow k f).1
            /\ (selected (randomLow k) = false -> g = f)
            /\ sameOtherFields f g)
         simulatedData updatedData.
Proof.
  apply (getRealTimeUpdates_frame (Err := string) shippedSource "BOM" 0 randomLow
           newProcessor
           {| dataCache := <["BOM" := simulatedData]> ∅;
              lastUpdated := <["BOM" := 0]> ∅ |}
           simulatedData [SourceCall defaultFilePath]).
  reflexivity.
Defined.

(** ** An invariant of the cache

    With a source whose logs hold no negative delay, as the simulated loader
    is, no method ever puts a negative delay in the cache or returns one. *)

Section NotNegative.
Context {Err : Type} (source : string -> Err + list ProcessedFlightData).
Hypothesis source_not_negative :
  forall filePath flightData,
    source filePath = inr flightData -> Forall delayNotNegative flightData.

Lemma cacheNotNegative_insert (s : FlightDataProcessor) (key : string)
    (flightData : list ProcessedFlightData) (updated : gmap string Z) :
  cacheNotNegative s ->
  Forall delayNotNegative flightData ->
  cacheNotNegative
    {| dataCache := <[key := flightData]> (dataCache s); lastUpdated := updated |}.
Proof.
  intros Hs Hdata code l. simpl. rewrite lookup_insert.
  case_decide; [intros [= <-]; exact Hdata|apply Hs].
Qed.

Lemma getFlightData_not_negative (airportCode : string) (now : Z)
    (s s' : FlightDataProcessor) (flightData : list ProcessedFlightData)
    (trace : list (Event Err)) :
  cacheNotNegative s ->
  getFlightData source airportCode now s = (inr flightData, s', trace) ->
  cacheNotNegative s' /\ Forall delayNotNegative flightData.
Proof.
  intros Hs Hget.
  destruct (cacheHit airportCode now s) as [cachedData|] eqn:Hhit.
  - rewrite (getFlightData_hit source _ _ _ _ Hhit) in Hget.
    injection Hget as <- <- _. split; [exact Hs|].
    apply cacheHit_Some in Hhit as [Hcached _]. eapply Hs, Hcached.
  - destruct (source defaultFilePath) as [error|freshData] eqn:Hsource.
    + rewrite (getFlightData_miss_failure source _ _ _ _ Hhit Hsource) in Hget.
      discriminate Hget.
    + rewrite (getFlightData_miss source _ _ _ _ Hhit Hsource) in Hget.
      injection Hget as <- <- _.
      pose proof (source_not_negative _ _ Hsource) as Hfresh.
      split; [apply cacheNotNegative_insert; assumption|exact Hfresh].
Qed.

Lemma getRealTimeUpdates_not_negative (airportCode : string) (now : Z)
    (random : nat -> Q) (s s' : FlightDataProcessor)
    (updatedData : list ProcessedFlightData) (trace : list (Event Err)) :
  cacheNotNegative s ->
  getRealTimeUpdates source airportCode now random s = (inr updatedData, s', trace) ->
  cacheNotNegative s' /\ Forall delayNotNegative updatedData.
Proof.
  intros Hs Hrun.
  destruct (getFlightData_total source airportCode now s)
    as [(flightData & s1 & t1 & Hget)|(error & _ & Hget)].
  - destruct (getFlightData_not_negative _ _ _ _ _ _ Hs Hget) as [Hs1 Hdata].
    rewrite (getRealTimeUpdates_fulfilled source _ _ random _ _ _ _ Hget) in Hrun.
    injection Hrun as <- <- _.
    pose proof (updateFlights_delay_not_negative random 0 _ Hdata) as Hout.
    split; [apply cacheNotNegative_insert; assumption|exact Hout].
  - destruct (methods_rejected source _ _ random _ _ _ _ Hget) as (_ & _ & Hrej).
    rewrite Hrej in Hrun. discriminate Hrun.
Qed.
End NotNegative.

Lemma newProcessor_not_negative : cacheNotNegative newProcessor.
Proof. intros code l. simpl. rewrite lookup_empty. discriminate. Qed.

Lemma shippedSource_not_negative {Err : Type} (filePath : string)
    (flightData : list ProcessedFlightData) :
  shippedSource (Err := Err) filePath = inr flightData ->
  Forall delayNotNegative flightData.
Proof.
  intros [= <-]. repeat constructor; intros d [= <-]; lia.
Qed.

(** ** A log with a tie *)

Example tiedLog_hours : hoursOf tiedLog = [7; 6; 6; 7; 5].
Proof. reflexivity. Qed.

Example tiedLog_peak :
  peakHour (airportStatistics tiedLog) = 7
  /\ peakFlights (airportStatistics tiedLog) = 2.
Proof. split; reflexivity. Qed.

Example tiedLog_analysis :
  peakHourAnalysis tiedLog
  = [ {| hour := 7; flightCount := 2; utilization := of_Z 100 |};
      {| hour := 6; flightCount := 2; utilization := of_Z 100 |};
      {| hour := 5; flightCount := 1; utilization := of_Z 50 |} ].
Proof. reflexivity. Qed.

(** * Further properties of the processor *)

(** ** Rounding to two decimals *)


Lemma inject_Z_pos (n : Z) : 0 < n -> (0 < inject_Z n)%Q.
Proof. intros Hn. change 0%Q with (inject_Z 0). rewrite <- Zlt_Qlt. exact Hn. Qed.







(** ** Bounds on the statistics *)



Lemma num_div_counts (a b : Z) :
  0 < b -> num_div (of_Z a) (of_Z b) = Num (Qred (inject_Z a / inject_Z b)).
Proof.
  intros Hb. unfold of_Z, num_div. rewrite Qis_zero_inject_Z.
  destruct (Z.eqb_spec b 0); [lia|reflexivity].
Qed.


Lemma count_bounds (p : ProcessedFlightData -> bool) (l : list ProcessedFlightData) :
  0 <= count p l <= Z.of_nat (length l).
Proof.
  induction l as [|f l IH].
  - unfold count. simpl. lia.
  - rewrite count_cons. simpl length. destruct (p f); lia.
Qed.

Lemma count_zero (p : ProcessedFlightData -> bool) (l : list ProcessedFlightData) :
  count p l = 0 <-> Forall (fun f => p f = false) l.
Proof.
  induction l as [|f l IH].
  - split; [constructor|reflexivity].
  - rewrite count_cons, Forall_cons. pose proof (count_bounds p l).
    destruct (p f); split.
    + lia.
    + intros [? _]. discriminate.
    + intros H0. split; [reflexivity|]. apply IH. lia.
    + intros [_ Hl]. apply IH in Hl. lia.
Qed.

Lemma count_all (p : ProcessedFlightData -> bool) (l : list ProcessedFlightData) :
  count p l = Z.of_nat (length l) <-> Forall (fun f => p f = true) l.
Proof.
  induction l as [|f l IH].
  - split; [constructor|reflexivity].
  - rewrite count_cons, Forall_cons. pose proof (count_bounds p l).
    simpl length. destruct (p f); split.
    + intros H0. split; [reflexivity|]. apply IH. lia.
    + intros [_ Hl]. apply IH in Hl. lia.
    + lia.
    + intros [? _]. discriminate.
Qed.

(** X1.  [delayedFlights] lies between 0 and [totalFlights], which is the
    length of the log; it is 0 exactly when no record has a delay above 0,
    and it is [totalFlights] exactly when every record has one. *)
Theorem delayedFlights_bounds (flightData : list ProcessedFlightData) :
  let stats := airportStatistics flightData in
  totalFlights stats = Z.of_nat (length flightData)
  /\ 0 <= delayedFlights stats <= totalFlights stats
  /\ (delayedFlights stats = 0
      <-> Forall (fun f => forall d, delayMinutes f = Some d -> d <= 0) flightData)
  /\ (delayedFlights stats = totalFlights stats
      <-> Forall (fun f => exists d, delayMinutes f = Some d /\ 0 < d) flightData).
Proof.
  intros stats. subst stats.
  destruct (airportStatistics_fields flightData) as (-> & -> & _).
  split; [reflexivity|]. split; [apply count_bounds|]. split.
  - rewrite count_zero. apply Forall_proper; [|reflexivity].
    intros f. unfold isDelayed. destruct (delayMinutes f) as [d|].
    + destruct (Z.ltb_spec 0 d); split; try discriminate.
      * intros H0. specialize (H0 d eq_refl). lia.
      * intros _ d' [= <-]. lia.
      * reflexivity.
    + split; [discriminate|reflexivity].
  - rewrite count_all. apply Forall_proper; [|reflexivity].
    intros f. unfold isDelayed. destruct (delayMinutes f) as [d|].
    + destruct (Z.ltb_spec 0 d); split; try discriminate.
      * intros _. exists d. split; [reflexivity|assumption].
      * reflexivity.
      * intros (d' & [= <-] & Hd). lia.
    + split; [discriminate|]. intros (d & Hd & _). discriminate.
Qed.





(** ** The counts of the hours add up *)

Lemma indicator_sum (x : Z) (ks : list Z) :
  NoDup ks ->
  foldr (fun h s => (if decide (x = h) then 1 else 0) + s) 0 ks
  = if decide (x ∈ ks) then 1 else 0.
Proof.
  induction 1 as [|k ks Hk Hnd IH].
  - reflexivity.
  - change (foldr (fun h s => (if decide (x = h) then 1 else 0) + s) 0 (k :: ks))
      with ((if decide (x = k) then 1 else 0)
            + foldr (fun h s => (if decide (x = h) then 1 else 0) + s) 0 ks).
    rewrite IH. destruct (decide (x = k)) as [->|Hne].
    + rewrite decide_False by exact Hk. rewrite decide_True by left. reflexivity.
    + destruct (decide (x ∈ ks)) as [Hin|Hin].
      * rewrite decide_True by (right; exact Hin). reflexivity.
      * rewrite decide_False; [reflexivity|].
        intros [?|?]%elem_of_cons; contradiction.
Qed.

Lemma hourCount_sum (l : list ProcessedFlightData) (ks : list Z) :
  NoDup ks ->
  (forall h, h ∈ hoursOf l -> h ∈ ks) ->
  foldr (fun h s => hourCount h l + s) 0 ks = Z.of_nat (length l).
Proof.
  intros Hnd. induction l as [|f l IH]; intros Hall.
  - induction ks as [|k ks IHks]; simpl; [reflexivity|].
    apply NoDup_cons in Hnd as [_ Hnd].
    rewrite IHks by (assumption || intros h Hh; inversion Hh). reflexivity.
  - assert (Hsplit : forall ks',
              foldr (fun h s => hourCount h (f :: l) + s) 0 ks'
              = foldr (fun h s => (if decide (scheduledHour f = h) then 1 else 0) + s) 0 ks'
                + foldr (fun h s => hourCount h l + s) 0 ks').
    { induction ks' as [|k ks' IHks]; simpl; [reflexivity|].
      rewrite IHks, hourCount_cons. lia. }
    rewrite Hsplit, indicator_sum by exact Hnd.
    rewrite IH by (intros h Hh; apply Hall; right; exact Hh).
    rewrite decide_True by (apply Hall; left). simpl length. lia.
Qed.

Lemma totalFlightCount_Permutation (l1 l2 : list PeakHourAnalysis) :
  l1 ≡ₚ l2 -> totalFlightCount l1 = totalFlightCount l2.
Proof.
  induction 1 as [|b l1 l2 _ IH|b1 b2 l|l1 l2 l3 _ IH1 _ IH2]; simpl.
  - reflexivity.
  - rewrite IH. reflexivity.
  - lia.
  - rewrite IH1. exact IH2.
Qed.

Lemma totalFlightCount_peakBuckets (l : list ProcessedFlightData) :
  totalFlightCount (peakBuckets l) = Z.of_nat (length l).
Proof.
  rewrite peakBuckets_closed_form.
  rewrite <- (hourCount_sum l (firstOccurrences (hoursOf l))).
  - unfold totalFlightCount.
    generalize (firstOccurrences (hoursOf l)). intros ks.
    induction ks as [|k ks IH]; simpl; [reflexivity|]. f_equal. exact IH.
  - apply firstOccurrences_NoDup.
  - intros h Hh. apply firstOccurrences_elem_of, Hh.
Qed.

(** X4.  The buckets of [getPeakHourAnalysis] account for every record once:
    their [flightCount]s add up to the [totalFlights] that
    [getAirportStatistics] reports for the same log. *)
Theorem peakHourAnalysis_counts_every_flight (flightData : list ProcessedFlightData) :
  totalFlightCount (peakHourAnalysis flightData)
  = totalFlights (airportStatistics flightData).
Proof.
  rewrite (totalFlightCount_Permutation _ _ (peakHourAnalysis_Permutation flightData)).
  rewrite totalFlightCount_peakBuckets.
  destruct (airportStatistics_fields flightData) as (-> & _). reflexivity.
Qed.

(** ** The first bucket is the peak *)

Section SortHead.
Context {A : Type} (key : A -> Z) (cmp : A -> A -> Z).
Hypothesis cmp_key : forall x y, cmp x y = key y - key x.

Lemma sort_insert_greatest (x : A) (l : list A) :
  Forall (fun y => key y <= key x) l -> sort_insert cmp x l = x :: l.
Proof.
  intros Hall. destruct l as [|y l]; simpl; [reflexivity|].
  apply Forall_cons in Hall as [Hy _].
  destruct (Z.leb_spec (cmp x y) 0) as [_|Hgt]; [reflexivity|].
  rewrite cmp_key in Hgt. lia.
Qed.

(** The stable sort puts first the first of the elements of greatest key. *)
Lemma array_sort_head (a b : list A) (x : A) :
  Forall (fun y => key y < key x) a ->
  Forall (fun y => key y <= key x) b ->
  array_sort cmp (a ++ x :: b) = x :: array_sort cmp (a ++ b).
Proof.
  intros Ha Hb. induction Ha as [|y a Hy Ha IH]; simpl.
  - apply sort_insert_greatest.
    rewrite (array_sort_Permutation cmp b). exact Hb.
  - rewrite IH. simpl.
    destruct (Z.leb_spec (cmp y x) 0) as [Hle|_]; [|reflexivity].
    rewrite cmp_key in Hle. lia.
Qed.
End SortHead.

Lemma hourCount_le_peak (l : list ProcessedFlightData) (h : Z) :
  l ≠ [] -> hourCount h l <= peakFlights (airportStatistics l).
Proof.
  intros Hne.
  destruct (findPeak_entry l Hne) as (a & b & Hfirst & Hcount & Ha & Hb).
  destruct (decide (h ∈ hoursOf l)) as [Hin|Hout].
  - apply firstOccurrences_elem_of in Hin. rewrite Hfirst in Hin.
    apply elem_of_app in Hin as [Hin|Hin].
    + specialize (Ha h Hin). lia.
    + apply elem_of_cons in Hin as [->|Hin]; [lia|apply Hb, Hin].
  - rewrite hourCount_absent by exact Hout.
    rewrite Hcount. apply hourCount_nonneg.
Qed.

Lemma peakFlights_positive (l : list ProcessedFlightData) :
  l ≠ [] -> 0 < peakFlights (airportStatistics l).
Proof.
  intros Hne. pose proof (peakFlights_zero l) as Hzero.
  destruct l as [|f l]; [congruence|].
  pose proof (hourCount_le_peak (f :: l) (scheduledHour f) Hne) as Hle.
  assert (0 < hourCount (scheduledHour f) (f :: l))
    by (apply hourCount_present; left).
  lia.
Qed.

Lemma utilization_full (c : Z) :
  0 < c ->
  Math_round (num_mul (num_div (of_Z c) (of_Z c)) (of_Z 100)) = of_Z 100.
Proof.
  intros Hc. rewrite num_div_counts by exact Hc.
  unfold num_mul, of_Z at 1, Math_round. f_equal.
  assert (Heq : (Qred (Qred (inject_Z c / inject_Z c) * inject_Z 100) + (1 # 2)
                 == inject_Z 100 + (1 # 2))%Q).
  { rewrite !Qred_correct. pose proof (inject_Z_pos c Hc) as Hpos.
    change (inject_Z 100) with 100%Q. field. lra. }
  rewrite Heq. reflexivity.
Qed.

(** On a log that is not empty the sort puts the bucket of the peak first. *)
Lemma peakHourAnalysis_head (flightData : list ProcessedFlightData) :
  flightData ≠ [] ->
  exists rest,
    peakHourAnalysis flightData
    = {| hour := peakHour (airportStatistics flightData);
         flightCount := peakFlights (airportStatistics flightData);
         utilization :=
           Math_round
             (num_mul
                (num_div (of_Z (peakFlights (airportStatistics flightData)))
                         (of_Z (peakFlights (airportStatistics flightData))))
                (of_Z 100)) |} :: rest.
Proof.
  intros Hne.
  destruct (findPeak_entry flightData Hne) as (a & b & Hfirst & Hcount & Ha & Hb).
  destruct (maxFlights_greatest flightData Hne) as (m & Hmax & (h & Hh & Hhm) & Hle).
  assert (Hm : m = peakFlights (airportStatistics flightData)).
  { pose proof (hourCount_le_peak flightData h Hne) as H1.
    assert (H2 : hourCount (peakHour (airportStatistics flightData)) flightData <= m).
    { apply Hle, firstOccurrences_elem_of. rewrite Hfirst.
      apply elem_of_app. right. left. }
    lia. }
  unfold peakHourAnalysis. rewrite peakBuckets_closed_form, Hfirst, Hmax.
  rewrite map_app, map_cons.
  rewrite (array_sort_head flightCount byFlightCountDesc); try reflexivity.
  - cbn beta. rewrite <- Hcount, Hm. eexists. reflexivity.
  - apply Forall_fmap, Forall_forall. intros k Hk. simpl.
    rewrite <- Hcount. apply Ha, Hk.
  - apply Forall_fmap, Forall_forall. intros k Hk. simpl.
    rewrite <- Hcount. apply Hb, Hk.
Qed.

(** X5.  On a log that is not empty the two analyses agree: the first bucket
    that [getPeakHourAnalysis] returns is the [peakHour] of
    [getAirportStatistics] with [peakFlights] flights, and its utilization is
    100. *)
Theorem peakHourAnalysis_head_is_peak (flightData : list ProcessedFlightData) :
  flightData ≠ [] ->
  head (peakHourAnalysis flightData)
  = Some {| hour := peakHour (airportStatistics flightData);
            flightCount := peakFlights (airportStatistics flightData);
            utilization := of_Z 100 |}.
Proof.
  intros Hne.
  destruct (peakHourAnalysis_head flightData Hne) as [rest ->].
  rewrite utilization_full by (apply peakFlights_positive, Hne).
  reflexivity.
Qed.

Lemma peakHourAnalysis_head_is_peak_witness :
  head (peakHourAnalysis tiedLog)
  = Some {| hour := peakHour (airportStatistics tiedLog);
            flightCount := peakFlights (airportStatistics tiedLog);
            utilization := of_Z 100 |}.
Proof. apply (peakHourAnalysis_head_is_peak tiedLog). discriminate. Defined.

(** ** Bounds on the capacity utilization *)

Global Instance round2Q_proper : Proper (Qeq ==> Qeq) round2Q.
Proof. intros x y Hxy. unfold round2Q. rewrite Hxy. reflexivity. Qed.







(** ** The cache across calls *)

Section CacheFacts.
Context {Err : Type} (source : string -> Err + list ProcessedFlightData).

Implicit Types (airportCode : string) (now : Z) (s : FlightDataProcessor).

(** What a call of [getFlightData] can be: a hit, a refresh, a failure. *)
Lemma getFlightData_cases airportCode now s :
  (exists cachedData,
     dataCache s !! airportCode = Some cachedData
     /\ getFlightData source airportCode now s = (inr cachedData, s, []))
  \/ (exists freshData,
        source defaultFilePath = inr freshData
        /\ getFlightData source airportCode now s
           = (inr freshData,
              {| dataCache := <["BOM" := freshData]> (dataCache s);
                 lastUpdated := <["BOM" := now]> (lastUpdated s) |},
              [SourceCall defaultFilePath]))
  \/ (exists error,
        source defaultFilePath = inl error
        /\ getFlightData source airportCode now s
           = (inl error, s,
              [SourceCall defaultFilePath;
               ConsoleError "Error loading flight data:" error])).
Proof.
  destruct (cacheHit airportCode now s) as [cachedData|] eqn:Hhit.
  - left. exists cachedData. split.
    + apply cacheHit_Some in Hhit as [Hcached _]. exact Hcached.
    + apply getFlightData_hit, Hhit.
  - destruct (source defaultFilePath) as [error|freshData] eqn:Hsource.
    + right. right. exists error. split; [reflexivity|].
      apply getFlightData_miss_failure; assumption.
    + right. left. exists freshData. split; [reflexivity|].
      apply getFlightData_miss; assumption.
Qed.

(** The two statistics methods leave the processor as [getFlightData] does. *)
Lemma statistics_state airportCode now s :
  (getAirportStatistics source airportCode now s).1.2
  = (getFlightData source airportCode now s).1.2
  /\ (getPeakHourAnalysis source airportCode now s).1.2
     = (getFlightData source airportCode now s).1.2.
Proof.
  destruct (getFlightData source airportCode now s) as [[[error|log] s'] t] eqn:Hget.
  - destruct (methods_rejected source _ _ (fun _ => 0%Q) _ _ _ _ Hget) as (-> & -> & _).
    split; reflexivity.
  - rewrite (getAirportStatistics_fulfilled source _ _ _ _ _ _ Hget).
    rewrite (getPeakHourAnalysis_fulfilled source _ _ _ _ _ _ Hget).
    split; reflexivity.
Qed.

Lemma getRealTimeUpdates_cases airportCode now random s :
  (exists flightData s' trace,
     getFlightData source airportCode now s = (inr flightData, s', trace)
     /\ getRealTimeUpdates source airportCode now random s
        = (inr (updateFlights random 0 flightData),
           {| dataCache :=
                <[airportCode := updateFlights random 0 flightData]> (dataCache s');
              lastUpdated := <[airportCode := now]> (lastUpdated s') |},
           trace))
  \/ (exists error trace,
        getFlightData source airportCode now s = (inl error, s, trace)
        /\ getRealTimeUpdates source airportCode now random s = (inl error, s, trace)).
Proof.
  destruct (getFlightData_total source airportCode now s)
    as [(flightData & s' & trace & Hget)|(error & _ & Hget)].
  - left. exists flightData, s', trace. split; [exact Hget|].
    apply getRealTimeUpdates_fulfilled, Hget.
  - right. eexists _, _. split; [exact Hget|].
    apply (methods_rejected source _ _ random _ _ _ _ Hget).
Qed.

(** The entry that [getRealTimeUpdates] stores is fresh for five minutes. *)
Lemma getRealTimeUpdates_stores airportCode now now' random s updatedData s' trace :
  getRealTimeUpdates source airportCode now random s = (inr updatedData, s', trace) ->
  now' - now < 5 * 60 * 1000 ->
  cacheHit airportCode now' s' = Some updatedData.
Proof.
  intros Hrun Hyoung.
  destruct (getRealTimeUpdates_cases airportCode now random s)
    as [(flightData & s0 & t0 & _ & Hrun')|(error & t0 & _ & Hrun')];
    rewrite Hrun' in Hrun; [|discriminate Hrun].
  injection Hrun as <- <- _.
  unfold cacheHit. simpl. rewrite !lookup_insert_eq.
  destruct (Z.ltb_spec (now' - now) (5 * 60 * 1000)); [reflexivity|lia].
Qed.

(** X7.  What [getRealTimeUpdates] returns can be read back: a call of
    [getFlightData] for the same code less than five minutes later returns
    that very sequence, without calling the source and without changing the
    processor.  This holds for every airport code. *)
Theorem getFlightData_after_getRealTimeUpdates airportCode now now' random s
    updatedData s' trace :
  getRealTimeUpdates source airportCode now random s = (inr updatedData, s', trace) ->
  now' - now < 5 * 60 * 1000 ->
  getFlightData source airportCode now' s' = (inr updatedData, s', []).
Proof.
  intros Hrun Hyoung.
  pose proof (getRealTimeUpdates_stores _ _ _ _ _ _ _ _ Hrun Hyoung) as Hhit.
  unfold getFlightData, bind, this. rewrite Hhit. reflexivity.
Qed.

(** X8.  Calls of [getRealTimeUpdates] less than five minutes apart feed on
    each other: the second call does not ask the source, it perturbs the
    sequence the first call stored, and stores the result with the new
    time, so the entry never grows old as long as the polling goes on. *)
Theorem getRealTimeUpdates_accumulates airportCode now now' random random' s
    updatedData s' trace :
  getRealTimeUpdates source airportCode now random s = (inr updatedData, s', trace) ->
  now' - now < 5 * 60 * 1000 ->
  exists s'',
    getRealTimeUpdates source airportCode now' random' s'
    = (inr (updateFlights random' 0 updatedData), s'', [])
    /\ dataCache s'' !! airportCode = Some (updateFlights random' 0 updatedData)
    /\ lastUpdated s'' !! airportCode = Some now'.
Proof.
  intros Hrun Hyoung.
  pose proof (getRealTimeUpdates_stores _ _ _ _ _ _ _ _ Hrun Hyoung) as Hhit.
  pose proof (getFlightData_hit source _ _ _ _ Hhit) as Hget.
  eexists. split; [apply getRealTimeUpdates_fulfilled, Hget|].
  simpl. split; apply lookup_insert_eq.
Qed.
End CacheFacts.

Lemma getFlightData_after_getRealTimeUpdates_witness :
  exists updatedData s',
    getRealTimeUpdates (Err := string) shippedSource "DEL" 0 randomLow newProcessor
    = (inr updatedData, s', [SourceCall defaultFilePath])
    /\ getFlightData (Err := string) shippedSource "DEL" 1000 s'
       = (inr updatedData, s', []).
Proof.
  eexists _, _. split; [reflexivity|].
  eapply (getFlightData_after_getRealTimeUpdates (Err := string) shippedSource
            "DEL" 0 1000 randomLow newProcessor).
  - reflexivity.
  - lia.
Defined.

Lemma getRealTimeUpdates_accumulates_witness :
  exists updatedData s' s'',
    getRealTimeUpdates (Err := string) shippedSource "BOM" 0 randomLow newProcessor
    = (inr updatedData, s', [SourceCall defaultFilePath])
    /\ getRealTimeUpdates (Err := string) shippedSource "BOM" 1000 randomLow s'
       = (inr (updateFlights randomLow 0 updatedData), s'', []).
Proof.
  eexists _, _.
  destruct (getRealTimeUpdates_accumulates (Err := string) shippedSource
              "BOM" 0 1000 randomLow randomLow newProcessor _ _ _ eq_refl)
    as (s'' & Hrun & _); [lia|].
  exists s''. split; [reflexivity|exact Hrun].
Defined.

(** ** Invariants of the processor *)

Section Invariants.
Context {Err : Type} (source : string -> Err + list ProcessedFlightData).

(** The state after a call, in the three shapes it can have. *)
Lemma afterCall_cases (s : FlightDataProcessor) (c : Call) :
  afterCall source s c = s
  \/ (exists freshData now,
        source defaultFilePath = inr freshData
        /\ afterCall source s c
           = {| dataCache := <["BOM" := freshData]> (dataCache s);
                lastUpdated := <["BOM" := now]> (lastUpdated s) |})
  \/ (exists airportCode now random flightData s',
        c = GetRealTimeUpdates airportCode now random
        /\ (s' = s
            \/ exists freshData,
                 source defaultFilePath = inr freshData
                 /\ s' = {| dataCache := <["BOM" := freshData]> (dataCache s);
                            lastUpdated := <["BOM" := now]> (lastUpdated s) |})
        /\ (dataCache s' !! airportCode = Some flightData
            \/ dataCache s' !! "BOM" = Some flightData)
        /\ afterCall source s c
           = {| dataCache :=
                  <[airportCode := updateFlights random 0 flightData]> (dataCache s');
                lastUpdated := <[airportCode := now]> (lastUpdated s') |}).
Proof.
  assert (Hread : forall airportCode now,
            (getFlightData source airportCode now s).1.2 = s
            \/ exists freshData now',
                 source defaultFilePath = inr freshData
                 /\ (getFlightData source airportCode now s).1.2
                    = {| dataCache := <["BOM" := freshData]> (dataCache s);
                         lastUpdated := <["BOM" := now']> (lastUpdated s) |}).
  { intros airportCode now.
    destruct (getFlightData_cases source airportCode now s)
      as [(d & _ & ->)|[(d & Hd & ->)|(e & _ & ->)]]; simpl;
      [left; reflexivity| |left; reflexivity].
    right. exists d, now. split; [exact Hd|reflexivity]. }
  destruct c as [code now|code now|code now|code now random]; simpl.
  - destruct (Hread code now) as [->|(d & t & Hd & ->)];
      [left; reflexivity|right; left; exists d, t; split; [exact Hd|reflexivity]].
  - rewrite (proj1 (statistics_state source code now s)).
    destruct (Hread code now) as [->|(d & t & Hd & ->)];
      [left; reflexivity|right; left; exists d, t; split; [exact Hd|reflexivity]].
  - rewrite (proj2 (statistics_state source code now s)).
    destruct (Hread code now) as [->|(d & t & Hd & ->)];
      [left; reflexivity|right; left; exists d, t; split; [exact Hd|reflexivity]].
  - destruct (getRealTimeUpdates_cases source code now random s)
      as [(log & s' & t & Hget & ->)|(e & t & _ & ->)]; [|left; reflexivity].
    right. right. exists code, now, random, log, s'. simpl.
    split; [reflexivity|].
    destruct (getFlightData_cases source code now s)
      as [(d & Hcached & Hrun)|[(d & Hd & Hrun)|(e & _ & Hrun)]];
      rewrite Hrun in Hget; try discriminate Hget; injection Hget as <- <- _.
    + split; [left; reflexivity|]. split; [left; exact Hcached|reflexivity].
    + split; [right; exists d; split; [exact Hd|reflexivity]|].
      split; [right; simpl; apply lookup_insert_eq|reflexivity].
Qed.

(** X9.  A call changes the cache only under the key ["BOM"] and, for
    [getRealTimeUpdates], under the airport code it was given: every other
    entry and every other timestamp stays as it was. *)
Theorem afterCall_frame (s : FlightDataProcessor) (c : Call) (key : string) :
  key ≠ "BOM" ->
  (forall airportCode now random,
     c = GetRealTimeUpdates airportCode now random -> key ≠ airportCode) ->
  dataCache (afterCall source s c) !! key = dataCache s !! key
  /\ lastUpdated (afterCall source s c) !! key = lastUpdated s !! key.
Proof.
  intros Hbom Hcode.
  destruct (afterCall_cases s c)
    as [->|[(d & t & _ & ->)|(code & t & r & log & s' & Hc & Hs' & _ & ->)]]; simpl.
  - split; reflexivity.
  - rewrite !lookup_insert_ne by congruence. split; reflexivity.
  - specialize (Hcode _ _ _ Hc).
    rewrite !lookup_insert_ne by congruence.
    destruct Hs' as [->|(d & _ & ->)]; simpl.
    + split; reflexivity.
    + rewrite !lookup_insert_ne by congruence. split; reflexivity.
Qed.

Lemma cacheConsistent_insert (s : FlightDataProcessor) (key : string)
    (data : list ProcessedFlightData) (now : Z) :
  cacheConsistent s ->
  cacheConsistent {| dataCache := <[key := data]> (dataCache s);
                     lastUpdated := <[key := now]> (lastUpdated s) |}.
Proof.
  unfold cacheConsistent. simpl. intros Hs. rewrite !dom_insert_L, Hs. reflexivity.
Qed.

Lemma afterCall_consistent (s : FlightDataProcessor) (c : Call) :
  cacheConsistent s -> cacheConsistent (afterCall source s c).
Proof.
  intros Hs.
  destruct (afterCall_cases s c)
    as [->|[(d & t & _ & ->)|(code & t & r & log & s' & _ & Hs' & _ & ->)]].
  - exact Hs.
  - apply cacheConsistent_insert, Hs.
  - apply cacheConsistent_insert.
    destruct Hs' as [->|(d & _ & ->)]; [exact Hs|apply cacheConsistent_insert, Hs].
Qed.

(** X10.  Whatever calls have been made on a new processor, and whether they
    were fulfilled or rejected, the two maps have the same keys: an airport
    code has a cached sequence exactly when it has a timestamp. *)
Theorem afterCalls_consistent (cs : list Call) (key : string) :
  is_Some (dataCache (afterCalls source cs newProcessor) !! key)
  <-> is_Some (lastUpdated (afterCalls source cs newProcessor) !! key).
Proof.
  assert (Hinv : forall s, cacheConsistent s -> cacheConsistent (afterCalls source cs s)).
  { induction cs as [|c cs IH]; intros s Hs; simpl; [exact Hs|].
    apply IH, afterCall_consistent, Hs. }
  specialize (Hinv newProcessor eq_refl). unfold cacheConsistent in Hinv.
  rewrite <- !elem_of_dom, Hinv. reflexivity.
Qed.

Lemma sameOtherFields_trans (f g h : ProcessedFlightData) :
  sameOtherFields f g -> sameOtherFields g h -> sameOtherFields f h.
Proof.
  unfold sameOtherFields. intros Hfg Hgh.
  destruct Hfg as (?&?&?&?&?&?&?&?&?&?&?&?&?).
  destruct Hgh as (?&?&?&?&?&?&?&?&?&?&?&?&?).
  split_and!; congruence.
Qed.

Lemma updateFlights_sameOtherFields (random : nat -> Q) (n : nat)
    (l : list ProcessedFlightData) :
  Forall2 sameOtherFields l (updateFlights random n l).
Proof.
  eapply Forall2_impl; [apply updateFlights_Forall2|].
  intros f g [k ->].
  destruct (updateFlight_cases random k f) as [[_ ->]|[_ ->]].
  - apply perturb_fields.
  - apply sameOtherFields_refl.
Qed.

Lemma Forall2_sameOtherFields_refl (l : list ProcessedFlightData) :
  Forall2 sameOtherFields l l.
Proof. induction l; constructor; [apply sameOtherFields_refl|assumption]. Qed.

Lemma Forall2_sameOtherFields_trans (l1 l2 l3 : list ProcessedFlightData) :
  Forall2 sameOtherFields l1 l2 -> Forall2 sameOtherFields l2 l3 ->
  Forall2 sameOtherFields l1 l3.
Proof.
  intros H12. revert l3. induction H12 as [|f g l1 l2 Hfg _ IH]; intros l3 H23.
  - inversion H23. constructor.
  - inversion H23 as [|g' h l2' l3' Hgh H23']; subst.
    constructor; [eapply sameOtherFields_trans; eassumption|apply IH, H23'].
Qed.

Lemma cacheFromSource_insert (s : FlightDataProcessor) (key : string)
    (data : list ProcessedFlightData) (updated : gmap string Z) :
  cacheFromSource source s ->
  (exists filePath sourceData,
     source filePath = inr sourceData /\ Forall2 sameOtherFields sourceData data) ->
  cacheFromSource source
    {| dataCache := <[key := data]> (dataCache s); lastUpdated := updated |}.
Proof.
  intros Hs Hdata k l. simpl. rewrite lookup_insert.
  case_decide; [intros [= <-]; exact Hdata|apply Hs].
Qed.

Lemma afterCall_fromSource (s : FlightDataProcessor) (c : Call) :
  cacheFromSource source s -> cacheFromSource source (afterCall source s c).
Proof.
  intros Hs.
  assert (Hfresh : forall d t,
            source defaultFilePath = inr d ->
            cacheFromSource source
              {| dataCache := <["BOM" := d]> (dataCache s);
                 lastUpdated := <["BOM" := t]> (lastUpdated s) |}).
  { intros d t Hd. apply cacheFromSource_insert; [exact Hs|].
    exists defaultFilePath, d. split; [exact Hd|apply Forall2_sameOtherFields_refl]. }
  destruct (afterCall_cases s c)
    as [->|[(d & t & Hd & ->)|(code & t & r & log & s' & _ & Hs' & Hlog & ->)]].
  - exact Hs.
  - apply Hfresh, Hd.
  - assert (Hs1 : cacheFromSource source s')
      by (destruct Hs' as [->|(d & Hd & ->)]; [exact Hs|apply Hfresh, Hd]).
    apply cacheFromSource_insert; [exact Hs1|].
    assert (Hfrom : exists filePath sourceData,
              source filePath = inr sourceData
              /\ Forall2 sameOtherFields sourceData log)
      by (destruct Hlog as [Hlog|Hlog]; eapply Hs1, Hlog).
    destruct Hfrom as (path & l0 & Hl0 & Hrel).
    exists path, l0. split; [exact Hl0|].
    eapply Forall2_sameOtherFields_trans; [exact Hrel|].
    apply updateFlights_sameOtherFields.
Qed.

(** X11.  Whatever calls have been made on a new processor, every cached
    sequence is a sequence the source returned, record for record and in the
    same order, in which at most [delayMinutes] and [status] differ: the
    processor never adds, drops, reorders or otherwise rewrites a record. *)
Theorem afterCalls_fromSource (cs : list Call) (key : string)
    (cachedData : list ProcessedFlightData) :
  dataCache (afterCalls source cs newProcessor) !! key = Some cachedData ->
  exists filePath sourceData,
    source filePath = inr sourceData
    /\ length cachedData = length sourceData
    /\ Forall2 sameOtherFields sourceData cachedData.
Proof.
  assert (Hinv : forall s, cacheFromSource source s ->
                           cacheFromSource source (afterCalls source cs s)).
  { induction cs as [|c cs IH]; intros s Hs; simpl; [exact Hs|].
    apply IH, afterCall_fromSource, Hs. }
  intros Hcached.
  assert (Hnew : cacheFromSource source newProcessor)
    by (intros k l; simpl; rewrite lookup_empty; discriminate).
  destruct (Hinv newProcessor Hnew key cachedData Hcached) as (path & l0 & Hl0 & Hrel).
  exists path, l0. split; [exact Hl0|]. split; [|exact Hrel].
  symmetry. eapply Forall2_length, Hrel.
Qed.
End Invariants.

Lemma afterCall_frame_witness :
  dataCache
    (afterCall (Err := string) shippedSource loadedProcessor
       (GetRealTimeUpdates "DEL" 1000 randomLow)) !! "BLR"
  = dataCache loadedProcessor !! "BLR".
Proof.
  apply (afterCall_frame (Err := string) shippedSource loadedProcessor
           (GetRealTimeUpdates "DEL" 1000 randomLow) "BLR").
  - discriminate.
  - intros code now random [= <- _ _]. discriminate.
Defined.

Lemma afterCalls_fromSource_witness :
  exists filePath sourceData,
    shippedSource (Err := string) filePath = inr sourceData
    /\ length (updateFlights randomLow 0 simulatedData) = length sourceData
    /\ Forall2 sameOtherFields sourceData (updateFlights randomLow 0 simulatedData).
Proof.
  apply (afterCalls_fromSource (Err := string) shippedSource
           [GetFlightData "BOM" 0; GetRealTimeUpdates "DEL" 1000 randomLow] "DEL").
  reflexivity.
Defined.

(** * The airline lookup *)

Example extractAirline_samples :
  map extractAirline ["AI101"; "6e203"; "sg305"; "UK407"; "XX1"; "A"; ""]
  = ["Air India"; "IndiGo"; "SpiceJet"; "Vistara";
     "Unknown Airline"; "Unknown Airline"; "Unknown Airline"].
Proof. vm_compute. reflexivity. Qed.

Lemma upperChar_idempotent (c : ascii) : upperChar (upperChar c) = upperChar c.
Proof. destruct c as [[] [] [] [] [] [] [] []]; reflexivity. Qed.

Lemma toUpperCase_length (s : string) :
  String.length (toUpperCase s) = String.length s.
Proof. induction s as [|c s IH]; simpl; [reflexivity|]. rewrite IH. reflexivity. Qed.

Lemma substring_prefix_length (m : nat) (s : string) :
  String.length (String.substring 0 m s) = Nat.min m (String.length s).
Proof.
  revert s. induction m as [|m IH]; intros [|c s]; simpl; try reflexivity.
  rewrite IH. reflexivity.
Qed.

Lemma airlineCodes_lookup (code name : string) :
  airlineCodes !! code = Some name ->
  (code, name)
  ∈ [ ("AI", "Air India"); ("6E", "IndiGo"); ("SG", "SpiceJet");
      ("UK", "Vistara"); ("G8", "GoAir"); ("IX", "Air India Express");
      ("QP", "Akasa Air") ].
Proof. apply elem_of_list_to_map_2. Qed.

(** X12.  A flight number of fewer than two characters, the empty one
    included, has no airline: [extractAirline] answers "Unknown Airline".
    Whatever the flight number, the answer is that or one of the seven names
    of the table, never an empty text. *)
Theorem extractAirline_range (flightNumber : string) :
  extractAirline flightNumber
  ∈ ["Air India"; "IndiGo"; "SpiceJet"; "Vistara"; "GoAir";
     "Air India Express"; "Akasa Air"; "Unknown Airline"]
  /\ ((String.length flightNumber < 2)%nat ->
      extractAirline flightNumber = "Unknown Airline").
Proof.
  unfold extractAirline.
  set (code := toUpperCase (String.substring 0 2 flightNumber)).
  destruct (airlineCodes !! code) as [name|] eqn:Hlookup.
  - apply airlineCodes_lookup in Hlookup.
    assert (Hlen : String.length code = Nat.min 2 (String.length flightNumber))
      by (subst code; rewrite toUpperCase_length; apply substring_prefix_length).
    clearbody code.
    assert (Hlong : (2 <= String.length flightNumber)%nat).
    { repeat (apply elem_of_cons in Hlookup as [[= Hcode _]|Hlookup];
              [rewrite Hcode in Hlen; cbn [String.length] in Hlen; lia|]).
      inversion Hlookup. }
    split; [|lia].
    repeat (apply elem_of_cons in Hlookup as [[= _ ->]|Hlookup];
            [simpl; set_solver|]).
    inversion Hlookup.
  - simpl. split; [set_solver|reflexivity].
Qed.

Lemma extractAirline_range_witness :
  extractAirline "A" = "Unknown Airline".
Proof. apply (extractAirline_range "A"). simpl. lia. Defined.

(** X13.  [extractAirline] reads the first two characters only and does not
    tell upper case from lower case: putting the two characters in upper
    case and changing the rest of the flight number changes nothing. *)
Theorem extractAirline_prefix_case (a b : ascii) (rest rest' : string) :
  extractAirline (String a (String b rest))
  = extractAirline (String (upperChar a) (String (upperChar b) rest')).
Proof.
  unfold extractAirline. simpl String.substring. simpl toUpperCase.
  rewrite !upperChar_idempotent. destruct rest, rest'; reflexivity.
Qed.

(** X14.  The seeding script has its own [extractAirline] with a longer
    table.  Whenever the processor's one knows the airline, the script's one
    gives the same name; the script's one knows seven codes more. *)
Theorem extractAirline_scripts_agree (flightNumber : string) :
  extractAirline flightNumber ≠ "Unknown Airline" ->
  SeedDatabase.extractAirline flightNumber = extractAirline flightNumber.
Proof.
  unfold extractAirline, SeedDatabase.extractAirline.
  set (code := toUpperCase (String.substring 0 2 flightNumber)).
  destruct (airlineCodes !! code) as [name|] eqn:Hlookup; [|simpl; congruence].
  intros _. apply airlineCodes_lookup in Hlookup.
  repeat (apply elem_of_cons in Hlookup as [[= -> ->]|Hlookup]; [reflexivity|]).
  inversion Hlookup.
Qed.

Lemma extractAirline_scripts_agree_witness :
  SeedDatabase.extractAirline "ix1234" = extractAirline "ix1234"
  /\ extractAirline "ix1234" = "Air India Express".
Proof.
  split; [|reflexivity].
  apply (extractAirline_scripts_agree "ix1234"). discriminate.
Defined.

Example extractAirline_scripts_differ :
  extractAirline "WY201" = "Unknown Airline"
  /\ SeedDatabase.extractAirline "WY201" = "Oman Air".
Proof. split; vm_compute; reflexivity. Qed.

(** * The helpers of the routes and of the seeding script *)

(** ** Random gates and terminals *)





(** ** The status shown by the tracking route *)

(** X16.  [getFlightStatus] shows "delayed" exactly when the delay is present
    and above 0, whatever the status, a cancelled flight included; without
    such a delay a flight whose status is [DELAYED] is shown as
    "scheduled". *)
Theorem getFlightStatus_delayed (status : FlightStatus) (delayMinutes : option Z) :
  (FlightTracking.getFlightStatus status delayMinutes = "delayed"
   <-> exists d, delayMinutes = Some d /\ 0 < d)
  /\ ((forall d, delayMinutes = Some d -> d <= 0) ->
      FlightTracking.getFlightStatus DELAYED delayMinutes = "scheduled").
Proof.
  unfold FlightTracking.getFlightStatus. split.
  - destruct delayMinutes as [d|]; [destruct (Z.ltb_spec 0 d)|].
    + split; [intros _; exists d; split; [reflexivity|assumption]|reflexivity].
    + split; [destruct status; discriminate|intros (d' & [= <-] & Hd); lia].
    + split; [destruct status; discriminate|intros (d' & Hd & _); discriminate].
  - intros Hnot. destruct delayMinutes as [d|]; [|reflexivity].
    specialize (Hnot d eq_refl). destruct (Z.ltb_spec 0 d); [lia|reflexivity].
Qed.

(** X17.  After a perturbation by [getRealTimeUpdates] the tracking route
    shows "delayed" exactly when the old delay plus the perturbation is above
    0.  So it does for every positive perturbation of a delay that was not
    negative; and a record that left early enough keeps being shown as
    "scheduled" although the perturbation was positive and its status has
    become [DELAYED]. *)
Theorem getFlightStatus_after_perturb (flight : ProcessedFlightData) (randomDelay : Z) :
  let updated := perturb flight randomDelay in
  (FlightTracking.getFlightStatus (status updated) (delayMinutes updated) = "delayed"
   <-> 0 < delayOrZero flight + randomDelay)
  /\ (0 < randomDelay -> delayOrZero flight + randomDelay <= 0 ->
      status updated = DELAYED
      /\ FlightTracking.getFlightStatus (status updated) (delayMinutes updated)
         = "scheduled").
Proof.
  intros updated. subst updated.
  destruct (perturb_fields flight randomDelay) as (_ & -> & ->).
  unfold FlightTracking.getFlightStatus. split.
  - destruct (Z.ltb_spec 0 (Z.max 0 (delayOrZero flight + randomDelay))) as [Hpos|Hnot].
    + split; [lia|reflexivity].
    + split; [|lia].
      destruct (Z.ltb 0 randomDelay); [discriminate|].
      destruct (status flight); discriminate.
  - intros Hrd Hsum.
    destruct (Z.ltb_spec 0 randomDelay) as [_|?]; [|lia].
    split; [reflexivity|].
    destruct (Z.ltb_spec 0 (Z.max 0 (delayOrZero flight + randomDelay)));
      [lia|reflexivity].
Qed.

Example earlyFlight_shown_scheduled :
  status (perturb earlyFlight 3) = DELAYED
  /\ FlightTracking.getFlightStatus (status (perturb earlyFlight 3))
       (delayMinutes (perturb earlyFlight 3)) = "scheduled".
Proof. split; reflexivity. Qed.

(** ** The peak-hour report of the flight-data route *)













Example nightLog_percentages :
  FlightData.morningPercentage (FlightData.peakHours (peakHourAnalysis nightLog)) = NaN.
Proof. vm_compute. reflexivity. Qed.

(** X19.  The peak hour that [analyzePeakHours] reports is the [peakHour] of
    [getAirportStatistics] for the same log, written with two digits, except
    that hour 0 is reported as "14:00": the default for an empty log also
    replaces a peak in the hour after midnight.  The first insight names the
    same hour and the [peakFlights] of the statistics. *)
Theorem peakHours_label (flightData : list ProcessedFlightData) :
  let report := FlightData.peakHours (peakHourAnalysis flightData) in
  let stats := airportStatistics flightData in
  let shown := if decide (peakHour stats = 0) then 14 else peakHour stats in
  FlightData.peakHour report = hourLabel shown
  /\ head (FlightData.insights report)
     = Some ("Peak traffic occurs at " +:+ hourLabel shown +:+ " with "
             +:+ toString (peakFlights stats) +:+ " flights").
Proof.
  intros report stats shown. subst report stats shown.
  destruct flightData as [|f l].
  - split; reflexivity.
  - destruct (peakHourAnalysis_head (f :: l)) as [rest Hhead]; [discriminate|].
    pose proof (peakFlights_positive (f :: l)) as Hpos.
    unfold FlightData.peakHours. rewrite Hhead. cbv zeta. cbn [head option_map].
    set (h := peakHour (airportStatistics (f :: l))).
    set (c := peakFlights (airportStatistics (f :: l))) in *.
    assert (Hh : numberOr (Some h) 14 = if decide (h = 0) then 14 else h)
      by (destruct h; reflexivity).
    assert (Hc : numberOr (Some c) 0 = c)
      by (destruct c; reflexivity).
    cbn [FlightData.peakHour FlightData.insights head].
    rewrite Hh, Hc. split; reflexivity.
Qed.

Example midnightLog_label :
  peakHour (airportStatistics midnightLog) = 0
  /\ FlightData.peakHour (FlightData.peakHours (peakHourAnalysis midnightLog)) = "14:00"
  /\ FlightData.peakHour (FlightData.peakHours (peakHourAnalysis simulatedData)) = "06:00".
Proof. split_and!; vm_compute; reflexivity. Qed.

(** X20.  [analyzePeakHours] adds no effect of its own to a fulfilled call:
    it leaves the processor and the trace as [getFlightData] leaves them.
    When [getFlightData] is rejected it is rejected with the same error,
    after logging it once more; it never answers with a default report. *)
Theorem analyzePeakHours_run {Err : Type}
    (source : string -> Err + list ProcessedFlightData)
    (airportCode : string) (now : Z) (s s' : FlightDataProcessor)
    (trace : list (Event Err)) :
  (forall flightData,
     getFlightData source airportCode now s = (inr flightData, s', trace) ->
     FlightData.analyzePeakHours source airportCode now s
     = (inr (FlightData.peakHours (peakHourAnalysis flightData)), s', trace))
  /\ (forall error,
        getFlightData source airportCode now s = (inl error, s', trace) ->
        FlightData.analyzePeakHours source airportCode now s
        = (inl error, s',
           trace ++ [ConsoleError "Error analyzing peak hours:" error])).
Proof.
  split.
  - intros flightData Hget. unfold FlightData.analyzePeakHours, try_catch, bind.
    rewrite (getPeakHourAnalysis_fulfilled source _ _ _ _ _ _ Hget).
    simpl. rewrite app_nil_r. reflexivity.
  - intros error Hget. unfold FlightData.analyzePeakHours, try_catch, bind.
    destruct (methods_rejected source _ _ (fun _ => 0%Q) _ _ _ _ Hget) as (_ & -> & _).
    simpl. reflexivity.
Qed.

(** ** The cascading risk of the flight-data route *)


Example cascadingRisk_simulated :
  FlightData.cascadingRisk (airportStatistics simulatedData)
  = {| FlightData.level := "medium";
       FlightData.propagationRate := Num (4 # 5);
       FlightData.affectedFlights := 4 |}.
Proof. vm_compute. reflexivity. Qed.

(** ** The popular routes of the flight-data route *)

Section KeyMapFacts.
Context {K : Type} `{EqDecision K}.

Lemma keymap_get_tabulate (g : K -> Z) (ks : list K) (k : K) :
  keymap_get k (map (fun h => (h, g h)) ks)
  = if decide (k ∈ ks) then Some (g k) else None.
Proof.
  induction ks as [|x ks IH].
  - case_decide as Hin; [inversion Hin|reflexivity].
  - cbn [map keymap_get]. destruct (decide (k = x)) as [->|Hne].
    + rewrite decide_True by left. reflexivity.
    + rewrite IH. destruct (decide (k ∈ ks)) as [Hin|Hin].
      * rewrite decide_True by (right; exact Hin). reflexivity.
      * rewrite decide_False; [reflexivity|].
        intros [?|?]%elem_of_cons; contradiction.
Qed.

Lemma keymap_set_tabulate_new (g : K -> Z) (ks : list K) (k : K) (v : Z) :
  k ∉ ks ->
  keymap_set k v (map (fun h => (h, g h)) ks) = map (fun h => (h, g h)) ks ++ [(k, v)].
Proof.
  induction ks as [|x ks IH]; intros Hin; cbn [map keymap_set app].
  - reflexivity.
  - apply not_elem_of_cons in Hin as [Hne Hin].
    rewrite decide_False by exact Hne. rewrite IH by exact Hin. reflexivity.
Qed.

Lemma keymap_set_tabulate_old (g g' : K -> Z) (ks : list K) (k : K) (v : Z) :
  k ∈ ks -> NoDup ks ->
  g' k = v -> (forall h, h ≠ k -> g' h = g h) ->
  keymap_set k v (map (fun h => (h, g h)) ks) = map (fun h => (h, g' h)) ks.
Proof.
  intros Hin Hnd Hk Hother.
  induction Hnd as [|x ks Hx Hnd IH]; [inversion Hin|].
  cbn [map keymap_set]. destruct (decide (k = x)) as [->|Hne].
  - rewrite Hk. f_equal.
    apply map_ext_in. intros h Hh%list_elem_of_In.
    rewrite Hother; [reflexivity|]. intros ->. contradiction.
  - rewrite Hother by congruence. f_equal.
    apply IH. apply elem_of_cons in Hin as [?|Hin]; [contradiction|exact Hin].
Qed.

Lemma firstKeys_elem_of (ks : list K) (k : K) : k ∈ firstKeys ks <-> k ∈ ks.
Proof.
  induction ks as [|x ks IH]; cbn [firstKeys].
  - reflexivity.
  - rewrite !elem_of_cons, list_elem_of_filter, IH.
    destruct (decide (k = x)); intuition.
Qed.

Lemma firstKeys_NoDup (ks : list K) : NoDup (firstKeys ks).
Proof.
  induction ks as [|x ks IH]; cbn [firstKeys].
  - constructor.
  - constructor.
    + rewrite list_elem_of_filter. intros [Hne _]. congruence.
    + apply NoDup_filter, IH.
Qed.

Lemma firstKeys_snoc (ks : list K) (k : K) :
  firstKeys (ks ++ [k])
  = if decide (k ∈ ks) then firstKeys ks else firstKeys ks ++ [k].
Proof.
  induction ks as [|x ks IH].
  - case_decide as Hin; [inversion Hin|reflexivity].
  - change (firstKeys ((x :: ks) ++ [k]))
      with (x :: filter (fun y => y ≠ x) (firstKeys (ks ++ [k]))).
    change (firstKeys (x :: ks)) with (x :: filter (fun y => y ≠ x) (firstKeys ks)).
    rewrite IH. destruct (decide (k ∈ ks)) as [Hin|Hin].
    + rewrite decide_True by (right; exact Hin). reflexivity.
    + destruct (decide (k = x)) as [->|Hne].
      * rewrite decide_True by left.
        rewrite filter_app, filter_cons_False, filter_nil, app_nil_r
          by (intros Hx; congruence).
        reflexivity.
      * rewrite decide_False
          by (intros [?|?]%elem_of_cons; [congruence|contradiction]).
        rewrite filter_app, filter_cons_True, filter_nil by exact Hne.
        reflexivity.
Qed.

Lemma occurrences_snoc (k x : K) (ks : list K) :
  occurrences k (ks ++ [x]) = occurrences k ks + (if decide (x = k) then 1 else 0).
Proof.
  unfold occurrences. rewrite filter_app, length_app, filter_cons, filter_nil.
  destruct (decide (x = k)); simpl length; lia.
Qed.

Lemma occurrences_absent (k : K) (ks : list K) : k ∉ ks -> occurrences k ks = 0.
Proof.
  intros Hout. unfold occurrences.
  induction ks as [|x ks IH]; [reflexivity|].
  apply not_elem_of_cons in Hout as [Hne Hout].
  rewrite filter_cons_False by congruence. apply IH, Hout.
Qed.

Lemma occurrences_present (k : K) (ks : list K) : k ∈ ks -> 0 < occurrences k ks.
Proof.
  intros Hin. unfold occurrences.
  induction ks as [|x ks IH]; [inversion Hin|].
  rewrite filter_cons. destruct (decide (x = k)) as [_|Hne]; [simpl length; lia|].
  apply elem_of_cons in Hin as [?|Hin]; [congruence|apply IH, Hin].
Qed.

(** Counting keys one by one builds one entry per key, in the order in which
    the keys first occur, holding the number of occurrences of the key. *)
Lemma tally_closed_form (ks : list K) :
  fold_left (fun m k => keymap_set k (default 0 (keymap_get k m) + 1) m) ks []
  = map (fun k => (k, occurrences k ks)) (firstKeys ks).
Proof.
  induction ks as [|x ks IH] using rev_ind.
  - reflexivity.
  - rewrite fold_left_app. cbn [fold_left]. rewrite IH.
    rewrite keymap_get_tabulate, firstKeys_snoc.
    destruct (decide (x ∈ firstKeys ks)) as [Hin|Hin].
    + rewrite decide_True by (apply firstKeys_elem_of; exact Hin).
      cbn [default].
      apply keymap_set_tabulate_old.
      * exact Hin.
      * apply firstKeys_NoDup.
      * rewrite occurrences_snoc, decide_True by reflexivity. reflexivity.
      * intros h Hne. rewrite occurrences_snoc, decide_False by congruence. lia.
    + assert (Hout : x ∉ ks) by (intros Hx; apply Hin, firstKeys_elem_of, Hx).
      rewrite decide_False by exact Hout. cbn [default].
      rewrite keymap_set_tabulate_new by exact Hin.
      rewrite map_app. cbn [map].
      rewrite occurrences_snoc, decide_True by reflexivity.
      rewrite (occurrences_absent x ks) by exact Hout.
      f_equal. apply map_ext_in. intros h Hh%list_elem_of_In.
      rewrite occurrences_snoc, decide_False; [f_equal; lia|].
      intros ->. contradiction.
Qed.
End KeyMapFacts.

Lemma StronglySorted_app_split {A : Type} (R : A -> A -> Prop) (l1 l2 : list A) :
  StronglySorted R (l1 ++ l2) ->
  StronglySorted R l1 /\ forall x y, x ∈ l1 -> y ∈ l2 -> R x y.
Proof.
  induction l1 as [|a l1 IH]; cbn [app]; intros Hsorted.
  - split; [constructor|]. intros x y Hx. inversion Hx.
  - apply StronglySorted_inv in Hsorted as [Hrest Hall].
    destruct (IH Hrest) as [Hl1 Hcross].
    rewrite Forall_app in Hall. destruct Hall as [Hall1 Hall2].
    split; [constructor; assumption|].
    intros x y [->|Hx]%elem_of_cons Hy.
    + rewrite Forall_forall in Hall2. apply Hall2, Hy.
    + apply Hcross; assumption.
Qed.

Lemma routeCounts_closed_form (l : list ProcessedFlightData) :
  FlightData.routeCounts l
  = map (fun r => (r, occurrences r (map FlightData.routeOf l)))
        (firstKeys (map FlightData.routeOf l)).
Proof.
  rewrite <- tally_closed_form. unfold FlightData.routeCounts.
  generalize (@nil (string * Z)).
  induction l as [|f l IH]; intros m; [reflexivity|].
  cbn [fold_left map]. rewrite IH. reflexivity.
Qed.

(** X22.  [popularRoutes] of [analyzePatterns] is a correct top five: it has
    at most five entries, one per route and no route twice, in
    non-increasing order of frequency; the frequency of a listed route is the
    number of flights of the log on that route; and no route of the log that
    is left out has more flights than a listed one. *)
Theorem popularRoutes_top_five (flightData : list ProcessedFlightData) :
  let routes := map FlightData.routeOf flightData in
  let top := FlightData.popularRoutes flightData in
  length top = Nat.min 5 (length (firstKeys routes))
  /\ NoDup (map FlightData.route top)
  /\ StronglySorted (fun a b => FlightData.frequency b <= FlightData.frequency a) top
  /\ (forall e, e ∈ top ->
        FlightData.route e ∈ routes
        /\ FlightData.frequency e = occurrences (FlightData.route e) routes)
  /\ (forall r e,
        r ∈ routes -> r ∉ map FlightData.route top -> e ∈ top ->
        occurrences r routes <= FlightData.frequency e).
Proof.
  intros routes top. subst top. unfold FlightData.popularRoutes.
  rewrite routeCounts_closed_form, map_map. fold routes.
  set (entry := fun r => {| FlightData.route := r;
                            FlightData.frequency := occurrences r routes |}).
  change (map _ (firstKeys routes)) with (map entry (firstKeys routes)).
  set (sorted := array_sort FlightData.byFrequencyDesc (map entry (firstKeys routes))).
  assert (Hperm : sorted ≡ₚ map entry (firstKeys routes))
    by apply array_sort_Permutation.
  assert (Hsorted : StronglySorted
                      (fun a b => FlightData.frequency b <= FlightData.frequency a)
                      sorted)
    by (apply (array_sort_sorted FlightData.frequency); reflexivity).
  rewrite <- (take_drop 5 sorted) in Hsorted.
  apply StronglySorted_app_split in Hsorted as [Htop Hcross].
  assert (Helem : forall e, e ∈ sorted ->
            FlightData.route e ∈ routes
            /\ FlightData.frequency e = occurrences (FlightData.route e) routes).
  { intros e He. rewrite Hperm in He.
    apply list_elem_of_fmap in He as (r & -> & Hr). simpl.
    split; [apply firstKeys_elem_of, Hr|reflexivity]. }
  assert (Hroutes : map FlightData.route sorted ≡ₚ firstKeys routes).
  { rewrite Hperm, map_map. simpl. rewrite map_id. reflexivity. }
  split_and!.
  - rewrite length_take. f_equal.
    rewrite Hperm. apply length_map.
  - assert (Hnd : NoDup (map FlightData.route sorted))
      by (rewrite Hroutes; apply firstKeys_NoDup).
    rewrite <- (take_drop 5 sorted), map_app in Hnd.
    apply NoDup_app in Hnd as [Hnd _]. exact Hnd.
  - exact Htop.
  - intros e He. apply Helem. eapply subseteq_take, He.
  - intros r e Hr Hout He.
    assert (Hin : entry r ∈ sorted)
      by (rewrite Hperm; apply (list_elem_of_fmap_2 entry), firstKeys_elem_of, Hr).
    rewrite <- (take_drop 5 sorted) in Hin.
    apply elem_of_app in Hin as [Hin|Hin].
    + exfalso. apply Hout.
      change r with (FlightData.route (entry r)).
      apply (list_elem_of_fmap_2 FlightData.route), Hin.
    + apply (Hcross e (entry r) He Hin).
Qed.

Example popularRoutes_simulated :
  FlightData.popularRoutes (simulatedData ++ simulatedData ++ [earlyFlight])
  = [ {| FlightData.route := "BOM-IXC"; FlightData.frequency := 2 |};
      {| FlightData.route := "BOM-HYD"; FlightData.frequency := 2 |};
      {| FlightData.route := "BOM-DEL"; FlightData.frequency := 2 |};
      {| FlightData.route := "BOM-BLR"; FlightData.frequency := 2 |};
      {| FlightData.route := "BOM-CMB"; FlightData.frequency := 2 |} ].
Proof. vm_compute. reflexivity. Qed.
